(** * White-Board front end: the synchronisation behaviour of [App.jsx]

    A shallow embedding of the React component [App] of [src/App.jsx]:
    the canvas painter [drawLine], the pointer handlers [startDrawing],
    [draw] and [stopDrawing], the STOMP subscription callback, the history
    replay [loadHistory] and the clear action [handleClear].

    The component runs on the browser's single-threaded event loop.  Every
    handler is modelled as a state transformer that may throw; everything
    a handler does to the outside world (canvas context calls, broker
    frames, HTTP requests, console output) is appended, in program order,
    to one effect log.  The event loop is the function [step].

    The model covers the component from its first render to its
    unmounting.  React re-renders between two events, so a handler always
    sees the latest value of every state variable; the two [await]s of the
    source split [loadHistory] and [handleClear] in two, the second half
    running when the request settles. *)

From stdpp Require Import gmap strings list.

Local Open Scope string_scope.
Local Open Scope Z_scope.
Local Open Scope list_scope.
Set Warnings "-register-all".

(** ** JavaScript values *)

(** Numbers are IEEE doubles in the source.  Nothing below depends on how
    they round, so they are kept abstract: a carrier with the literals,
    the subtraction and the truthiness test the source uses. *)
Class Number := {
  num : Type;
  num_of_Z : Z → num;              (* the literals 0 and 4 *)
  num_sub : num → num → num;       (* [a - b] *)
  num_truthy : num → bool;         (* false exactly for +0, -0 and NaN *)
}.

(** How an evaluation ends: with a value, or by throwing.  [RequestError]
    stands for whatever a failed HTTP request rejects with. *)
Inductive error := TypeError | SyntaxError | RequestError.

Inductive completion (A : Type) :=
| Normal (a : A)
| Throw (e : error).
Arguments Normal {A} a.
Arguments Throw {A} e.

Section App.
Context `{Number}.

(** What [JSON.parse] can return, plus [undefined], which reading a missing
    property produces. *)
Inductive value :=
| VUndefined
| VNull
| VBool (b : bool)
| VNum (n : num)
| VString (s : string)
| VArray (items : list value)
| VObject (props : gmap string value).

(** [v.k] for a property name [k] that no built-in prototype defines (this
    holds of every name the source reads: userId, type, startX, startY,
    endX, endY, color, lineWidth, tool).  Reading a property of [null] or
    [undefined] throws; on any other non-object the property is missing. *)
Definition get_prop (v : value) (k : string) : completion value :=
  match v with
  | VUndefined | VNull => Throw TypeError
  | VObject props => Normal (default VUndefined (props !! k))
  | _ => Normal VUndefined
  end.

(** [ToBoolean]. *)
Definition truthy (v : value) : bool :=
  match v with
  | VUndefined | VNull => false
  | VBool b => b
  | VNum n => num_truthy n
  | VString s => negb (String.eqb s "")
  | VArray _ | VObject _ => true
  end.

(** [a || b]. *)
Definition js_or (a b : value) : value := if truthy a then a else b.

(** [v === s] for a string [s]. *)
Definition strict_eq_string (v : value) (s : string) : bool :=
  match v with
  | VString s' => String.eqb s' s
  | _ => false
  end.

(** A parameter declared as [p = d]: the default applies to [undefined]. *)
Definition default_param (v d : value) : value :=
  match v with
  | VUndefined => d
  | _ => v
  end.

(** ** Effects *)

(** Calls and assignments on the 2D context of the canvas. *)
Inductive ctx_op :=
| Save
| SetGlobalCompositeOperation (mode : string)
| SetStrokeStyle (style : value)
| SetLineWidth (w : value)
| SetLineCap (cap : string)
| SetLineJoin (join : string)
| BeginPath
| MoveTo (x y : value)
| LineTo (x y : value)
| Stroke
| Restore
| ClearRect (x y w h : value).

(** Everything the component does to its environment.  [Publish] records
    the object handed to [JSON.stringify], not its text. *)
Inductive effect :=
| Ctx (op : ctx_op)
| SetCanvasSize (w h : num)
| Activate
| Subscribe (topic : string)
| Publish (destination : string) (body : value)
| HttpGet (url : string)
| HttpDelete (url : string)
| ConsoleLog (msg : string)
| ConsoleError (msg : string) (e : error)
| Uncaught (e : error).

Definition API_URL : string := "http://localhost:8080".
Definition SESSION_ID : string := "default-session".

(** ** Component state *)

Record position := { x : num; y : num }.

(** The STOMP client as the component sees it. *)
Record client := { connected : bool }.

(** [getBoundingClientRect()] of the canvas, as read by a handler. *)
Record rect := { left : num; top : num; width : num; height : num }.

Record state := {
  log : list effect;                (* effects so far, oldest first *)
  canvas_width : num;
  canvas_height : num;
  stompClientRef : option client;   (* [None] is the initial [null] *)
  lastPos : position;
  isDrawing : bool;
  color : string;
  lineWidth : num;
  tool : string;
  connectedUsers : Z;
  userId : string;
  history_pending : bool;           (* [loadHistory] suspended at its await *)
  deletes_pending : nat;            (* [handleClear] calls suspended at theirs *)
}.

Definition initial (uid : string) : state :=
  {| log := [];
     canvas_width := num_of_Z 300;   (* the size of a canvas element *)
     canvas_height := num_of_Z 150;  (* that has no size attributes   *)
     stompClientRef := None;
     lastPos := {| x := num_of_Z 0; y := num_of_Z 0 |};
     isDrawing := false;
     color := "#2D3748";
     lineWidth := num_of_Z 4;
     tool := "draw";
     connectedUsers := 1;
     userId := uid;
     history_pending := false;
     deletes_pending := 0 |}.

Definition set_log (l : list effect) (s : state) : state :=
  {| log := l; canvas_width := canvas_width s;
     canvas_height := canvas_height s; stompClientRef := stompClientRef s;
     lastPos := lastPos s; isDrawing := isDrawing s; color := color s;
     lineWidth := lineWidth s; tool := tool s;
     connectedUsers := connectedUsers s; userId := userId s;
     history_pending := history_pending s;
     deletes_pending := deletes_pending s |}.

Definition set_canvas_size (w h : num) (s : state) : state :=
  {| log := log s; canvas_width := w; canvas_height := h;
     stompClientRef := stompClientRef s;
     lastPos := lastPos s; isDrawing := isDrawing s; color := color s;
     lineWidth := lineWidth s; tool := tool s;
     connectedUsers := connectedUsers s; userId := userId s;
     history_pending := history_pending s;
     deletes_pending := deletes_pending s |}.

Definition set_stompClientRef (c : option client) (s : state) : state :=
  {| log := log s; canvas_width := canvas_width s;
     canvas_height := canvas_height s; stompClientRef := c;
     lastPos := lastPos s; isDrawing := isDrawing s; color := color s;
     lineWidth := lineWidth s; tool := tool s;
     connectedUsers := connectedUsers s; userId := userId s;
     history_pending := history_pending s;
     deletes_pending := deletes_pending s |}.

Definition set_lastPos (p : position) (s : state) : state :=
  {| log := log s; canvas_width := canvas_width s;
     canvas_height := canvas_height s; stompClientRef := stompClientRef s;
     lastPos := p; isDrawing := isDrawing s; color := color s;
     lineWidth := lineWidth s; tool := tool s;
     connectedUsers := connectedUsers s; userId := userId s;
     history_pending := history_pending s;
     deletes_pending := deletes_pending s |}.

Definition set_isDrawing (b : bool) (s : state) : state :=
  {| log := log s; canvas_width := canvas_width s;
     canvas_height := canvas_height s; stompClientRef := stompClientRef s;
     lastPos := lastPos s; isDrawing := b; color := color s;
     lineWidth := lineWidth s; tool := tool s;
     connectedUsers := connectedUsers s; userId := userId s;
     history_pending := history_pending s;
     deletes_pending := deletes_pending s |}.

Definition set_color (c : string) (s : state) : state :=
  {| log := log s; canvas_width := canvas_width s;
     canvas_height := canvas_height s; stompClientRef := stompClientRef s;
     lastPos := lastPos s; isDrawing := isDrawing s; color := c;
     lineWidth := lineWidth s; tool := tool s;
     connectedUsers := connectedUsers s; userId := userId s;
     history_pending := history_pending s;
     deletes_pending := deletes_pending s |}.

Definition set_lineWidth (w : num) (s : state) : state :=
  {| log := log s; canvas_width := canvas_width s;
     canvas_height := canvas_height s; stompClientRef := stompClientRef s;
     lastPos := lastPos s; isDrawing := isDrawing s; color := color s;
     lineWidth := w; tool := tool s;
     connectedUsers := connectedUsers s; userId := userId s;
     history_pending := history_pending s;
     deletes_pending := deletes_pending s |}.

Definition set_tool (t : string) (s : state) : state :=
  {| log := log s; canvas_width := canvas_width s;
     canvas_height := canvas_height s; stompClientRef := stompClientRef s;
     lastPos := lastPos s; isDrawing := isDrawing s; color := color s;
     lineWidth := lineWidth s; tool := t;
     connectedUsers := connectedUsers s; userId := userId s;
     history_pending := history_pending s;
     deletes_pending := deletes_pending s |}.

Definition set_connectedUsers (n : Z) (s : state) : state :=
  {| log := log s; canvas_width := canvas_width s;
     canvas_height := canvas_height s; stompClientRef := stompClientRef s;
     lastPos := lastPos s; isDrawing := isDrawing s; color := color s;
     lineWidth := lineWidth s; tool := tool s;
     connectedUsers := n; userId := userId s;
     history_pending := history_pending s;
     deletes_pending := deletes_pending s |}.

Definition set_history_pending (b : bool) (s : state) : state :=
  {| log := log s; canvas_width := canvas_width s;
     canvas_height := canvas_height s; stompClientRef := stompClientRef s;
     lastPos := lastPos s; isDrawing := isDrawing s; color := color s;
     lineWidth := lineWidth s; tool := tool s;
     connectedUsers := connectedUsers s; userId := userId s;
     history_pending := b;
     deletes_pending := deletes_pending s |}.

Definition set_deletes_pending (n : nat) (s : state) : state :=
  {| log := log s; canvas_width := canvas_width s;
     canvas_height := canvas_height s; stompClientRef := stompClientRef s;
     lastPos := lastPos s; isDrawing := isDrawing s; color := color s;
     lineWidth := lineWidth s; tool := tool s;
     connectedUsers := connectedUsers s; userId := userId s;
     history_pending := history_pending s;
     deletes_pending := n |}.

(** ** Handlers: state transformers that may throw *)

Definition M (A : Type) : Type := state → completion A * state.

Definition ret {A} (a : A) : M A := λ s, (Normal a, s).

Definition throw {A} (e : error) : M A := λ s, (Throw e, s).

Definition bind {A B} (m : M A) (k : A → M B) : M B :=
  λ s, match m s with
       | (Normal a, s') => k a s'
       | (Throw e, s') => (Throw e, s')
       end.

Definition lift {A} (c : completion A) : M A := λ s, (c, s).

Definition read {A} (f : state → A) : M A := λ s, (Normal (f s), s).

Definition modify (f : state → state) : M unit := λ s, (Normal tt, f s).

Definition emit (e : effect) : M unit :=
  modify (λ s, set_log (log s ++ [e]) s).

(** [try { m } catch (err) { h err }] *)
Definition try_catch {A} (m : M A) (h : error → M A) : M A :=
  λ s, match m s with
       | (Normal a, s') => (Normal a, s')
       | (Throw e, s') => h e s'
       end.

#[export] Instance M_bind : MBind M := λ A B k m, bind m k.

(** [items.forEach(f)]: an exception thrown by [f] ends the loop. *)
Fixpoint forEach (items : list value) (f : value → M unit) : M unit :=
  match items with
  | [] => ret tt
  | e :: rest => f e ;; forEach rest f
  end.

(** ** The component's functions, in source order *)

(** [resizeCanvas], for the rectangle the canvas currently occupies. *)
Definition resizeCanvas (r : rect) : M unit :=
  emit (SetCanvasSize (width r) (height r)) ;;
  modify (set_canvas_size (width r) (height r)).

Definition ctx (op : ctx_op) : M unit := emit (Ctx op).

Definition drawLine
    (x1 y1 x2 y2 strokeColor strokeWidth toolType : value) : M unit :=
  let toolType := default_param toolType (VString "draw") in
  ctx Save ;;
  (if strict_eq_string toolType "erase" then
     ctx (SetGlobalCompositeOperation "destination-out") ;;
     ctx (SetStrokeStyle (VString "rgba(0,0,0,1)"))
   else
     ctx (SetGlobalCompositeOperation "source-over") ;;
     ctx (SetStrokeStyle strokeColor)) ;;
  ctx (SetLineWidth strokeWidth) ;;
  ctx (SetLineCap "round") ;;
  ctx (SetLineJoin "round") ;;
  ctx BeginPath ;;
  ctx (MoveTo x1 y1) ;;
  ctx (LineTo x2 y2) ;;
  ctx Stroke ;;
  ctx Restore.

Definition clearCanvas : M unit :=
  w ← read canvas_width;
  h ← read canvas_height;
  ctx (ClearRect (VNum (num_of_Z 0)) (VNum (num_of_Z 0)) (VNum w) (VNum h)).

(** The callback given to [client.subscribe].  Its argument is the outcome
    of [JSON.parse(message.body)]: [None] when the body is not JSON. *)
Definition on_message (parsed : option value) : M unit :=
  data ← match parsed with
         | Some data => ret data
         | None => throw SyntaxError
         end;
  sender ← lift (get_prop data "userId");
  uid ← read userId;
  if strict_eq_string sender uid then ret tt else
  type ← lift (get_prop data "type");
  (if strict_eq_string type "draw" then
     startX ← lift (get_prop data "startX");
     startY ← lift (get_prop data "startY");
     endX ← lift (get_prop data "endX");
     endY ← lift (get_prop data "endY");
     c ← lift (get_prop data "color");
     w ← lift (get_prop data "lineWidth");
     t ← lift (get_prop data "tool");
     drawLine startX startY endX endY c w t
   else ret tt) ;;
  type ← lift (get_prop data "type");
  if strict_eq_string type "clear" then clearCanvas else ret tt.

(** [onConnect]. *)
Definition onConnect : M unit :=
  emit (ConsoleLog "STOMP connected") ;;
  emit (Subscribe "/topic/whiteboard") ;;
  modify (λ s, set_connectedUsers (connectedUsers s + 1) s).

(** [loadHistory] up to its [await]: the request is issued. *)
Definition loadHistory : M unit :=
  emit (HttpGet (API_URL +:+ "/api/whiteboard/history/" +:+ SESSION_ID)) ;;
  modify (set_history_pending true).

(** The function passed to [res.data.forEach]. *)
Definition replay_entry (e : value) : M unit :=
  startX ← lift (get_prop e "startX");
  startY ← lift (get_prop e "startY");
  endX ← lift (get_prop e "endX");
  endY ← lift (get_prop e "endY");
  c ← lift (get_prop e "color");
  w ← lift (get_prop e "lineWidth");
  t ← lift (get_prop e "tool");
  drawLine startX startY endX endY c w (js_or t (VString "draw")).

(** [loadHistory] from its [await] on.  [res] is how the request settled:
    [Normal data] carries [res.data], [Throw] is a rejected request.  Only
    an array has a callable [forEach]. *)
Definition loadHistory_resume (res : completion value) : M unit :=
  try_catch
    (data ← lift res;
     match data with
     | VArray items => forEach items replay_entry
     | _ => throw TypeError
     end)
    (λ err, emit (ConsoleError "History load failed" err)).

(** The effect of [useEffect]: runs once, after the first render. *)
Definition useEffect (r : rect) : M unit :=
  resizeCanvas r ;;
  loadHistory ;;
  emit Activate ;;
  modify (set_stompClientRef (Some {| connected := false |})).

Definition startDrawing (clientX clientY : num) (r : rect) : M unit :=
  modify (set_isDrawing true) ;;
  modify (set_lastPos {| x := num_sub clientX (left r);
                         y := num_sub clientY (top r) |}).

(** The object [draw] serialises for the broker. *)
Definition draw_envelope (uid : string) (from to : position)
    (c : string) (w : num) (t : string) : value :=
  VObject (list_to_map
    [("type", VString "draw"); ("sessionId", VString SESSION_ID);
     ("userId", VString uid);
     ("startX", VNum (x from)); ("startY", VNum (y from));
     ("endX", VNum (x to)); ("endY", VNum (y to));
     ("color", VString c); ("lineWidth", VNum w); ("tool", VString t)]).

(** The object [handleClear] serialises for the broker. *)
Definition clear_envelope (uid : string) : value :=
  VObject (list_to_map
    [("type", VString "clear"); ("sessionId", VString SESSION_ID);
     ("userId", VString uid)]).

(** [stompClientRef.current?.connected && stompClientRef.current.publish(...)] *)
Definition publish_if_connected (body : value) : M unit :=
  c ← read stompClientRef;
  match c with
  | Some cl => if connected cl then emit (Publish "/app/draw" body) else ret tt
  | None => ret tt
  end.

Definition draw (clientX clientY : num) (r : rect) : M unit :=
  drawing ← read isDrawing;
  if negb drawing then ret tt else
  let currentPos := {| x := num_sub clientX (left r);
                       y := num_sub clientY (top r) |} in
  last ← read lastPos;
  c ← read color;
  w ← read lineWidth;
  t ← read tool;
  uid ← read userId;
  drawLine (VNum (x last)) (VNum (y last))
           (VNum (x currentPos)) (VNum (y currentPos))
           (VString c) (VNum w) (VString t) ;;
  publish_if_connected (draw_envelope uid last currentPos c w t) ;;
  modify (set_lastPos currentPos).

Definition stopDrawing : M unit := modify (set_isDrawing false).

(** [handleClear] up to its [await]. *)
Definition handleClear : M unit :=
  clearCanvas ;;
  uid ← read userId;
  publish_if_connected (clear_envelope uid) ;;
  emit (HttpDelete (API_URL +:+ "/api/whiteboard/clear/" +:+ SESSION_ID)) ;;
  modify (λ s, set_deletes_pending (S (deletes_pending s)) s).

(** [handleClear] from its [await] on: nothing is left to run; a failed
    request rejects the promise [handleClear] returned. *)
Definition handleClear_resume (ok : bool) : M unit :=
  if ok then ret tt else throw RequestError.

(** ** The event loop *)

(** What the browser can deliver to the mounted component. *)
Inductive event :=
| WindowResize (r : rect)
| HistoryResponse (res : completion value)   (* the GET settles *)
| StompConnected                             (* also after a reconnect *)
| StompDisconnected
| StompMessage (parsed : option value)       (* a frame on the topic *)
| MouseDown (clientX clientY : num) (r : rect)
| MouseMove (clientX clientY : num) (r : rect)
| MouseUp
| MouseLeave
| ChangeLineWidth (w : num)
| ChangeColor (c : string)
| ClickDraw
| ClickErase
| ClickClear
| DeleteResponse (ok : bool).                (* a DELETE settles *)

(** A handler runs to completion; an exception that escapes it, or the
    rejection of a promise nobody awaits, is reported and the loop goes
    on. *)
Definition run_handler (m : M unit) (s : state) : state :=
  match m s with
  | (Normal _, s') => s'
  | (Throw e, s') => set_log (log s' ++ [Uncaught e]) s'
  end.

Definition is_connected (s : state) : bool :=
  match stompClientRef s with
  | Some c => connected c
  | None => false
  end.

Definition step (s : state) (ev : event) : state :=
  match ev with
  | WindowResize r => run_handler (resizeCanvas r) s
  | HistoryResponse res =>
      if history_pending s
      then run_handler (loadHistory_resume res) (set_history_pending false s)
      else s
  | StompConnected =>
      match stompClientRef s with
      | Some _ =>
          run_handler onConnect
            (set_stompClientRef (Some {| connected := true |}) s)
      | None => s
      end
  | StompDisconnected =>
      match stompClientRef s with
      | Some _ => set_stompClientRef (Some {| connected := false |}) s
      | None => s
      end
  | StompMessage parsed =>
      if is_connected s then run_handler (on_message parsed) s else s
  | MouseDown cx cy r => run_handler (startDrawing cx cy r) s
  | MouseMove cx cy r => run_handler (draw cx cy r) s
  | MouseUp | MouseLeave => run_handler stopDrawing s
  | ChangeLineWidth w => set_lineWidth w s
  | ChangeColor c => set_tool "draw" (set_color c s)
  | ClickDraw => set_tool "draw" s
  | ClickErase => set_tool "erase" s
  | ClickClear => run_handler handleClear s
  | DeleteResponse ok =>
      match deletes_pending s with
      | S n => run_handler (handleClear_resume ok) (set_deletes_pending n s)
      | O => s
      end
  end.

Definition run (s : state) (evs : list event) : state := foldl step s evs.

(** The component after its first render and its effect. *)
Definition mounted (uid : string) (r : rect) : state :=
  run_handler (useEffect r) (initial uid).

(** ** Reading the log *)

Definition renderer_calls (l : list effect) : list ctx_op :=
  omap (λ e, match e with Ctx op => Some op | _ => None end) l.

Definition publishes (l : list effect) : list (string * value) :=
  omap (λ e, match e with Publish d b => Some (d, b) | _ => None end) l.

Definition uncaught (l : list effect) : list error :=
  omap (λ e, match e with Uncaught err => Some err | _ => None end) l.

(** [s] with the effects [l] appended to its log. *)
Definition append (l : list effect) (s : state) : state :=
  set_log (log s ++ l) s.
Arguments append : simpl never.

(** A value whose properties can be read: anything but [null] and
    [undefined]. *)
Definition readable (v : value) : bool :=
  match v with
  | VUndefined | VNull => false
  | _ => true
  end.

(** [v.k] of a readable [v]. *)
Definition field (v : value) (k : string) : value :=
  match get_prop v k with
  | Normal a => a
  | Throw _ => VUndefined
  end.

(** The context calls one [drawLine] makes. *)
Definition drawLine_ops
    (x1 y1 x2 y2 strokeColor strokeWidth toolType : value) : list ctx_op :=
  [Save] ++
  (if strict_eq_string (default_param toolType (VString "draw")) "erase"
   then [SetGlobalCompositeOperation "destination-out";
         SetStrokeStyle (VString "rgba(0,0,0,1)")]
   else [SetGlobalCompositeOperation "source-over";
         SetStrokeStyle strokeColor]) ++
  [SetLineWidth strokeWidth; SetLineCap "round"; SetLineJoin "round";
   BeginPath; MoveTo x1 y1; LineTo x2 y2; Stroke; Restore].

(** The context calls the subscription callback makes for a draw envelope. *)
Definition inbound_ops (data : value) : list ctx_op :=
  drawLine_ops (field data "startX") (field data "startY")
               (field data "endX") (field data "endY")
               (field data "color") (field data "lineWidth")
               (field data "tool").

(** The context calls the replay makes for one history entry. *)
Definition replay_ops (e : value) : list ctx_op :=
  drawLine_ops (field e "startX") (field e "startY")
               (field e "endX") (field e "endY")
               (field e "color") (field e "lineWidth")
               (js_or (field e "tool") (VString "draw")).

(** The effects of replaying [entries]: the paints of the entries before
    the first unreadable one, and the exception that one raises, if any. *)
Fixpoint replay_effects (entries : list value) : list effect * option error :=
  match entries with
  | [] => ([], None)
  | e :: rest =>
      if readable e
      then let '(l, r) := replay_effects rest in
           ((Ctx <$> replay_ops e) ++ l, r)
      else ([], Some TypeError)
  end.

(** The effects of [loadHistory] once its request has settled with [res]. *)
Definition history_effects (res : completion value) : list effect :=
  match res with
  | Throw err => [ConsoleError "History load failed" err]
  | Normal (VArray items) =>
      let '(l, r) := replay_effects items in
      l ++ match r with
           | Some err => [ConsoleError "History load failed" err]
           | None => []
           end
  | Normal _ => [ConsoleError "History load failed" TypeError]
  end.

(** Surface coordinates of a pointer event. *)
Definition surface_pos (clientX clientY : num) (r : rect) : position :=
  {| x := num_sub clientX (left r); y := num_sub clientY (top r) |}.

(** What one pointer-move sample from [from] to [to] emits in state [s]:
    the local paint, then the publication when the broker is connected. *)
Definition segment_effects (s : state) (from to : position) : list effect :=
  (Ctx <$> drawLine_ops (VNum (x from)) (VNum (y from))
                        (VNum (x to)) (VNum (y to))
                        (VString (color s)) (VNum (lineWidth s))
                        (VString (tool s))) ++
  (if is_connected s
   then [Publish "/app/draw"
           (draw_envelope (userId s) from to (color s) (lineWidth s) (tool s))]
   else []).

(** A pointer event: [clientX], [clientY] and the canvas rectangle at the
    time the handler reads it. *)
Definition pointer : Type := num * num * rect.

Definition pointer_pos (p : pointer) : position :=
  surface_pos p.1.1 p.1.2 p.2.

Definition mouse_move (p : pointer) : event := MouseMove p.1.1 p.1.2 p.2.

Definition mouse_down (p : pointer) : event := MouseDown p.1.1 p.1.2 p.2.

(** The segments of one gesture: from the anchor to the first sample, from
    each sample to the next. *)
Fixpoint gesture_segments (anchor : position) (samples : list position)
    : list (position * position) :=
  match samples with
  | [] => []
  | p :: rest => (anchor, p) :: gesture_segments p rest
  end.

(** Everything one gesture emits in state [s]. *)
Definition gesture_effects (s : state) (anchor : position)
    (samples : list position) : list effect :=
  flat_map (λ seg, segment_effects s seg.1 seg.2)
           (gesture_segments anchor samples).

(** The events whose handlers call [publish]. *)
Definition publishing_event (ev : event) : bool :=
  match ev with
  | MouseMove _ _ _ | ClickClear => true
  | _ => false
  end.

(** ** The event loop, read as log and state *)

(** What the subscription callback paints for [parsed] in state [s]. *)
Definition message_paints (s : state) (parsed : option value) : list effect :=
  match parsed with
  | Some data =>
      if readable data then
        if strict_eq_string (field data "userId") (userId s) then []
        else
          (if strict_eq_string (field data "type") "draw"
           then Ctx <$> inbound_ops data else []) ++
          (if strict_eq_string (field data "type") "clear"
           then [Ctx (ClearRect (VNum (num_of_Z 0)) (VNum (num_of_Z 0))
                                (VNum (canvas_width s))
                                (VNum (canvas_height s)))]
           else [])
      else []
  | None => []
  end.

(** How the subscription callback ends for [parsed]. *)
Definition message_completion (parsed : option value) : completion unit :=
  match parsed with
  | Some data => if readable data then Normal tt else Throw TypeError
  | None => Throw SyntaxError
  end.

(** The exception the event loop reports for a completion, if any. *)
Definition reported {A} (c : completion A) : list effect :=
  match c with
  | Normal _ => []
  | Throw e => [Uncaught e]
  end.

(** What a click on Clear emits in state [s]. *)
Definition clear_effects (s : state) : list effect :=
  [Ctx (ClearRect (VNum (num_of_Z 0)) (VNum (num_of_Z 0))
                  (VNum (canvas_width s)) (VNum (canvas_height s)))]
  ++ (if is_connected s
      then [Publish "/app/draw" (clear_envelope (userId s))] else [])
  ++ [HttpDelete (API_URL +:+ "/api/whiteboard/clear/" +:+ SESSION_ID)].

(** The effects one event appends to the log. *)
Definition step_log (s : state) (ev : event) : list effect :=
  match ev with
  | WindowResize r => [SetCanvasSize (width r) (height r)]
  | HistoryResponse res =>
      if history_pending s then history_effects res else []
  | StompConnected =>
      match stompClientRef s with
      | Some _ => [ConsoleLog "STOMP connected"; Subscribe "/topic/whiteboard"]
      | None => []
      end
  | StompMessage parsed =>
      if is_connected s
      then message_paints s parsed ++ reported (message_completion parsed)
      else []
  | MouseMove cx cy r =>
      if isDrawing s
      then segment_effects s (lastPos s) (surface_pos cx cy r)
      else []
  | ClickClear => clear_effects s
  | DeleteResponse ok =>
      match deletes_pending s with
      | S _ => if ok then [] else [Uncaught RequestError]
      | O => []
      end
  | _ => []
  end.

(** What one event does to the state apart from the log. *)
Definition step_state (s : state) (ev : event) : state :=
  match ev with
  | WindowResize r => set_canvas_size (width r) (height r) s
  | HistoryResponse _ =>
      if history_pending s then set_history_pending false s else s
  | StompConnected =>
      match stompClientRef s with
      | Some _ =>
          set_connectedUsers (connectedUsers s + 1)
            (set_stompClientRef (Some {| connected := true |}) s)
      | None => s
      end
  | StompDisconnected =>
      match stompClientRef s with
      | Some _ => set_stompClientRef (Some {| connected := false |}) s
      | None => s
      end
  | StompMessage _ => s
  | MouseDown cx cy r =>
      set_lastPos (surface_pos cx cy r) (set_isDrawing true s)
  | MouseMove cx cy r =>
      if isDrawing s then set_lastPos (surface_pos cx cy r) s else s
  | MouseUp | MouseLeave => set_isDrawing false s
  | ChangeLineWidth w => set_lineWidth w s
  | ChangeColor c => set_tool "draw" (set_color c s)
  | ClickDraw => set_tool "draw" s
  | ClickErase => set_tool "erase" s
  | ClickClear => set_deletes_pending (S (deletes_pending s)) s
  | DeleteResponse _ =>
      match deletes_pending s with
      | S n => set_deletes_pending n s
      | O => s
      end
  end.

(** The entries of a history up to the first unreadable one. *)
Fixpoint readable_prefix (entries : list value) : list value :=
  match entries with
  | [] => []
  | e :: rest => if readable e then e :: readable_prefix rest else []
  end.

(** The HTTP requests in a log: method and URL. *)
Definition requests (l : list effect) : list (string * string) :=
  omap (λ e, match e with
             | HttpGet url => Some ("GET", url)
             | HttpDelete url => Some ("DELETE", url)
             | _ => None
             end) l.

Definition subscriptions (l : list effect) : list string :=
  omap (λ e, match e with Subscribe t => Some t | _ => None end) l.

Definition console_errors (l : list effect) : list (string * error) :=
  omap (λ e, match e with ConsoleError m err => Some (m, err) | _ => None end)
       l.

Definition is_StompConnected (ev : event) : bool :=
  match ev with StompConnected => true | _ => false end.

Definition is_ClickClear (ev : event) : bool :=
  match ev with ClickClear => true | _ => false end.


(** The events whose handling can end in an exception: a frame from the
    broker, and a DELETE that failed. *)
Definition may_throw (ev : event) : bool :=
  match ev with
  | StompMessage _ | DeleteResponse false => true
  | _ => false
  end.

(** How many events of [evs] satisfy [f]. *)
Definition count (f : event → bool) (evs : list event) : nat :=
  length (List.filter f evs).

(** A publication that goes to the one publish destination and carries
    the participant [uid], the session, and a known discriminator. *)
Definition tagged (uid : string) (p : string * value) : Prop :=
  p.1 = "/app/draw"
  ∧ field p.2 "userId" = VString uid
  ∧ field p.2 "sessionId" = VString SESSION_ID
  ∧ (field p.2 "type" = VString "draw" ∨ field p.2 "type" = VString "clear").

(** The state [s] with the log [l]: what a state is apart from its log. *)
Definition besides_log (s : state) : state := set_log [] s.

(** The context calls of a stroke in draw mode. *)
Definition draw_mode_ops (x1 y1 x2 y2 strokeColor strokeWidth : value)
    : list ctx_op :=
  [Save; SetGlobalCompositeOperation "source-over";
   SetStrokeStyle strokeColor; SetLineWidth strokeWidth;
   SetLineCap "round"; SetLineJoin "round"; BeginPath;
   MoveTo x1 y1; LineTo x2 y2; Stroke; Restore].

(** The context calls of a stroke in erase mode. *)
Definition erase_mode_ops (x1 y1 x2 y2 strokeWidth : value) : list ctx_op :=
  [Save; SetGlobalCompositeOperation "destination-out";
   SetStrokeStyle (VString "rgba(0,0,0,1)"); SetLineWidth strokeWidth;
   SetLineCap "round"; SetLineJoin "round"; BeginPath;
   MoveTo x1 y1; LineTo x2 y2; Stroke; Restore].

End App.

(** ** Sample data: integer coordinates *)

Definition Z_Number : Number :=
  {| num := Z; num_of_Z := id; num_sub := Z.sub;
     num_truthy := λ n, negb (n =? 0) |}.

Definition znum (n : Z) : @value Z_Number := @VNum Z_Number n.

(** left, top, width, height *)
Definition sample_rect : @rect Z_Number := @Build_rect Z_Number 10 20 800 600.

(** A participant whose effect has run and whose broker connection is up. *)
Definition alice : @state Z_Number :=
  run (mounted "user-alice001" sample_rect) [StompConnected].

(** The fields of a draw envelope other than its session. *)
Definition sample_fields (uid : string) (x1 y1 x2 y2 : Z) (t : string)
    : gmap string (@value Z_Number) :=
  list_to_map
    [("type", VString "draw"); ("userId", VString uid);
     ("startX", znum x1); ("startY", znum y1);
     ("endX", znum x2); ("endY", znum y2);
     ("color", VString "#000000"); ("lineWidth", znum 4);
     ("tool", VString t)].

(** A draw envelope as peers publish it. *)
Definition sample_draw (sid uid : string) (x1 y1 x2 y2 : Z) (t : string)
    : @value Z_Number :=
  VObject (<["sessionId" := VString sid]> (sample_fields uid x1 y1 x2 y2 t)).

(** Alice's own segment, as the broker sends it back to her. *)
Definition echoed_draw : @value Z_Number :=
  sample_draw "default-session" "user-alice001" 0 0 10 10 "draw".

(** A segment drawn by Bob in another session. *)
Definition foreign_draw : @value Z_Number :=
  sample_draw "other-session" "user-bob00002" 0 0 10 10 "draw".

(** A live segment drawn by Bob in this session. *)
Definition live_draw : @value Z_Number :=
  sample_draw "default-session" "user-bob00002" 50 50 60 60 "draw".



(** Carol joins late: her effect has run, nothing else has happened. *)
Definition carol : @state Z_Number := mounted "user-carol003" sample_rect.

(** Two stored segments, as the history store returns them. *)
Definition segment1 : @value Z_Number :=
  sample_draw "default-session" "user-alice001" 0 0 10 10 "draw".

Definition segment2 : @value Z_Number :=
  sample_draw "default-session" "user-alice001" 10 10 20 5 "erase".

(** A stored segment that has no [tool]. *)
Definition toolless_entry : @value Z_Number :=
  VObject (list_to_map
    [("sessionId", VString "default-session");
     ("userId", VString "user-alice001");
     ("startX", znum 1); ("startY", znum 2);
     ("endX", znum 3); ("endY", znum 4);
     ("color", VString "#ff0000"); ("lineWidth", znum 6)]).

(** A pointer event on the sample canvas. *)
Definition sample_pointer (clientX clientY : Z) : @pointer Z_Number :=
  (clientX, clientY, sample_rect).

(** Bob, connected like Alice. *)
Definition bob : @state Z_Number :=
  run (mounted "user-bob00002" sample_rect) [StompConnected].

(** Alice with the pointer down at (5, 5) on the surface. *)
Definition alice_drawing : @state Z_Number :=
  step alice (mouse_down (sample_pointer 15 25)).



(** The context calls of one sample stroke, width 4, colour #000000. *)
Definition sample_ops (x1 y1 x2 y2 : Z) (t : string) : list (@ctx_op Z_Number) :=
  drawLine_ops (znum x1) (znum y1) (znum x2) (znum y2)
               (VString "#000000") (znum 4) (VString t).

Section Properties.
Context `{Number}.

(** *** The log only grows *)

Lemma append_nil s : append [] s = s.
Proof. destruct s. unfold append, set_log. simpl. by rewrite app_nil_r. Qed.

Lemma append_append l1 l2 s : append l2 (append l1 s) = append (l1 ++ l2) s.
Proof. unfold append, set_log. simpl. by rewrite app_assoc. Qed.

Lemma log_append l s : log (append l s) = log s ++ l.
Proof. reflexivity. Qed.

Lemma emit_run e s : emit e s = (Normal tt, append [e] s).
Proof. reflexivity. Qed.

(** *** Running a handler, one statement at a time *)

Lemma bind_assoc {A B C} (m : M A) (k : A → M B) (k' : B → M C) s :
  ((m ≫= k) ≫= k') s = (m ≫= λ a, k a ≫= k') s.
Proof.
  unfold mbind, M_bind, bind. destruct (m s) as [[a|e] s']; [|done].
  by destruct (k a s') as [[b|e] s''].
Qed.

Lemma bind_emit {B} e (k : unit → M B) s :
  (emit e ≫= k) s = k tt (append [e] s).
Proof. reflexivity. Qed.

Lemma bind_ctx {B} op (k : unit → M B) s :
  (ctx op ≫= k) s = k tt (append [Ctx op] s).
Proof. reflexivity. Qed.

Lemma bind_read {A B} (f : state → A) (k : A → M B) s :
  (read f ≫= k) s = k (f s) s.
Proof. reflexivity. Qed.

Lemma bind_modify {B} f (k : unit → M B) s :
  (modify f ≫= k) s = k tt (f s).
Proof. reflexivity. Qed.

Lemma bind_ret {A B} (a : A) (k : A → M B) s : (ret a ≫= k) s = k a s.
Proof. reflexivity. Qed.

Lemma bind_lift_Normal {A B} (a : A) (k : A → M B) s :
  (lift (Normal a) ≫= k) s = k a s.
Proof. reflexivity. Qed.

Lemma bind_lift_Throw {A B} e (k : A → M B) s :
  (lift (Throw e) ≫= k) s = (Throw e, s).
Proof. reflexivity. Qed.

Lemma bind_run {A B} (m : M A) (k : A → M B) s a s' :
  m s = (Normal a, s') → (m ≫= k) s = k a s'.
Proof. unfold mbind, M_bind, bind. by intros ->. Qed.

Lemma bind_if {A B} (b : bool) (m1 m2 : M A) (k : A → M B) s :
  ((if b then m1 else m2) ≫= k) s
  = if b then (m1 ≫= k) s else (m2 ≫= k) s.
Proof. by destruct b. Qed.

Lemma ctx_run op s : ctx op s = (Normal tt, append [Ctx op] s).
Proof. reflexivity. Qed.

Ltac step_M :=
  first [ rewrite bind_assoc | rewrite bind_emit | rewrite bind_ctx
        | rewrite bind_read | rewrite bind_modify | rewrite bind_ret
        | rewrite bind_lift_Normal | rewrite bind_lift_Throw
        | rewrite emit_run | rewrite ctx_run ];
  cbv beta.

Ltac run_M := repeat step_M; rewrite ?append_append.

Lemma drawLine_run x1 y1 x2 y2 c w t s :
  drawLine x1 y1 x2 y2 c w t s
  = (Normal tt, append (Ctx <$> drawLine_ops x1 y1 x2 y2 c w t) s).
Proof.
  unfold drawLine, drawLine_ops. cbv zeta.
  destruct (strict_eq_string _ _); by run_M.
Qed.

Lemma clearCanvas_run s :
  clearCanvas s
  = (Normal tt,
     append [Ctx (ClearRect (VNum (num_of_Z 0)) (VNum (num_of_Z 0))
                            (VNum (canvas_width s)) (VNum (canvas_height s)))]
            s).
Proof. reflexivity. Qed.

Lemma readable_get_prop v k :
  readable v = true → get_prop v k = Normal (field v k).
Proof. unfold field. by destruct v. Qed.

Lemma get_prop_readable v k a : get_prop v k = Normal a → readable v = true.
Proof. by destruct v. Qed.

(** What the subscription callback does with a readable envelope. *)
Lemma on_message_readable data s :
  readable data = true →
  on_message (Some data) s
  = if strict_eq_string (field data "userId") (userId s)
    then (Normal tt, s)
    else
      (Normal tt,
       append
         ((if strict_eq_string (field data "type") "draw"
           then Ctx <$> inbound_ops data else []) ++
          (if strict_eq_string (field data "type") "clear"
           then [Ctx (ClearRect (VNum (num_of_Z 0)) (VNum (num_of_Z 0))
                                (VNum (canvas_width s))
                                (VNum (canvas_height s)))]
           else []))
         s).
Proof.
  intros Hr. unfold on_message. cbv iota beta.
  rewrite bind_ret. cbv beta.
  rewrite (readable_get_prop _ "userId" Hr), bind_lift_Normal, bind_read.
  cbv beta.
  destruct (strict_eq_string (field data "userId") _); [done|].
  rewrite (readable_get_prop _ "type" Hr), bind_lift_Normal. cbv beta.
  rewrite bind_if.
  destruct (strict_eq_string (field data "type") "draw").
  - rewrite !(readable_get_prop _ _ Hr). run_M.
    rewrite (bind_run _ _ _ _ _ (drawLine_run _ _ _ _ _ _ _ _)).
    run_M. destruct (strict_eq_string (field data "type") "clear").
    + by rewrite clearCanvas_run, append_append.
    + by rewrite app_nil_r.
  - run_M.
    destruct (strict_eq_string (field data "type") "clear").
    + by rewrite clearCanvas_run.
    + by rewrite append_nil.
Qed.

Lemma strict_eq_string_false v k :
  v ≠ VString k → strict_eq_string v k = false.
Proof.
  destruct v; try done. intros Hne. apply String.eqb_neq. congruence.
Qed.

Lemma strict_eq_string_true v k :
  strict_eq_string v k = true ↔ v = VString k.
Proof.
  destruct v; cbn; try done. rewrite String.eqb_eq. split; congruence.
Qed.

(** *** The handlers, as effects appended to the log *)

Lemma resizeCanvas_run r s :
  resizeCanvas r s
  = (Normal tt,
     set_canvas_size (width r) (height r)
       (append [SetCanvasSize (width r) (height r)] s)).
Proof. reflexivity. Qed.

Lemma onConnect_run s :
  onConnect s
  = (Normal tt,
     set_connectedUsers (connectedUsers s + 1)
       (append [ConsoleLog "STOMP connected"; Subscribe "/topic/whiteboard"]
               s)).
Proof. unfold onConnect. run_M. reflexivity. Qed.

Lemma publish_if_connected_run body s :
  publish_if_connected body s
  = (Normal tt,
     append (if is_connected s then [Publish "/app/draw" body] else []) s).
Proof.
  unfold publish_if_connected, is_connected. rewrite bind_read.
  destruct (stompClientRef s) as [[[]]|]; by rewrite ?append_nil.
Qed.

Lemma startDrawing_run cx cy r s :
  startDrawing cx cy r s
  = (Normal tt, set_lastPos (surface_pos cx cy r) (set_isDrawing true s)).
Proof. reflexivity. Qed.

Lemma draw_run cx cy r s :
  draw cx cy r s
  = if isDrawing s
    then (Normal tt,
          set_lastPos (surface_pos cx cy r)
            (append (segment_effects s (lastPos s) (surface_pos cx cy r)) s))
    else (Normal tt, s).
Proof.
  unfold draw. rewrite bind_read. destruct (isDrawing s); [|done].
  cbv beta iota zeta. unfold negb. run_M.
  rewrite (bind_run _ _ _ _ _ (drawLine_run _ _ _ _ _ _ _ _)).
  rewrite (bind_run _ _ _ _ _ (publish_if_connected_run _ _)).
  by rewrite append_append.
Qed.

Lemma handleClear_run s :
  handleClear s
  = (Normal tt,
     set_deletes_pending (S (deletes_pending s))
       (append
          ([Ctx (ClearRect (VNum (num_of_Z 0)) (VNum (num_of_Z 0))
                           (VNum (canvas_width s)) (VNum (canvas_height s)))]
           ++ (if is_connected s
               then [Publish "/app/draw" (clear_envelope (userId s))]
               else [])
           ++ [HttpDelete
                 (API_URL +:+ "/api/whiteboard/clear/" +:+ SESSION_ID)])
          s)).
Proof.
  unfold handleClear.
  rewrite (bind_run _ _ _ _ _ (clearCanvas_run _)), bind_read.
  rewrite (bind_run _ _ _ _ _ (publish_if_connected_run _ _)).
  run_M. unfold modify. by rewrite app_assoc.
Qed.

Lemma replay_entry_run e s :
  readable e = true →
  replay_entry e s = (Normal tt, append (Ctx <$> replay_ops e) s).
Proof.
  intros Hr. unfold replay_entry.
  rewrite !(readable_get_prop _ _ Hr). run_M. apply drawLine_run.
Qed.

Lemma replay_entry_unreadable e s :
  readable e = false → replay_entry e s = (Throw TypeError, s).
Proof. by destruct e. Qed.

Lemma forEach_replay entries s :
  forEach entries replay_entry s
  = (match (replay_effects entries).2 with
     | Some err => Throw err
     | None => Normal tt
     end,
     append (replay_effects entries).1 s).
Proof.
  revert s. induction entries as [|e rest IH]; intros s; cbn [forEach].
  { by rewrite append_nil. }
  cbn [replay_effects]. destruct (readable e) eqn:Hr.
  - rewrite (bind_run _ _ _ _ _ (replay_entry_run _ _ Hr)), IH.
    destruct (replay_effects rest) as [l r]. cbn.
    by rewrite append_append.
  - unfold mbind, M_bind, bind. rewrite (replay_entry_unreadable _ _ Hr).
    cbn. by rewrite append_nil.
Qed.

Lemma loadHistory_resume_run res s :
  loadHistory_resume res s = (Normal tt, append (history_effects res) s).
Proof.
  unfold loadHistory_resume, try_catch, history_effects.
  destruct res as [data|err]; [|done].
  rewrite bind_lift_Normal.
  destruct data; try done.
  rewrite forEach_replay. destruct (replay_effects items) as [l [err|]]; cbn.
  - by rewrite emit_run, append_append.
  - by rewrite app_nil_r.
Qed.

Lemma replay_effects_readable entries :
  Forall (λ e, readable e = true) entries →
  replay_effects entries = (Ctx <$> flat_map replay_ops entries, None).
Proof.
  induction 1 as [|e rest Hr _ IH]; [done|].
  cbn [replay_effects flat_map]. rewrite Hr, IH. by rewrite fmap_app.
Qed.

Lemma renderer_calls_app l1 l2 :
  renderer_calls (l1 ++ l2) = renderer_calls l1 ++ renderer_calls l2.
Proof. apply omap_app. Qed.

Lemma renderer_calls_Ctx ops : renderer_calls (Ctx <$> ops) = ops.
Proof. induction ops as [|op ops IH]; [done|]. cbn. f_equal. apply IH. Qed.

Lemma publishes_app l1 l2 : publishes (l1 ++ l2) = publishes l1 ++ publishes l2.
Proof. apply omap_app. Qed.

Lemma publishes_Ctx ops : publishes (Ctx <$> ops) = [].
Proof. induction ops as [|op ops IH]; [done|]. apply IH. Qed.

Lemma uncaught_app l1 l2 : uncaught (l1 ++ l2) = uncaught l1 ++ uncaught l2.
Proof. apply omap_app. Qed.

Lemma uncaught_Ctx ops : uncaught (Ctx <$> ops) = [].
Proof. induction ops as [|op ops IH]; [done|]. apply IH. Qed.

(** *** Inbound dispatch *)

Lemma step_message s parsed :
  step s (StompMessage parsed)
  = if is_connected s then run_handler (on_message parsed) s else s.
Proof. reflexivity. Qed.

Lemma step_message_dropped s parsed :
  on_message parsed s = (Normal tt, s) → step s (StompMessage parsed) = s.
Proof.
  intros Hm. rewrite step_message. unfold run_handler. rewrite Hm.
  by destruct (is_connected s).
Qed.

(** C1 (echo suppression).  An inbound envelope whose [userId] is the local
    participant's is discarded: the callback returns normally and leaves
    the whole state, hence the effect log and the renderer calls in it,
    as it was. *)
Theorem echo_suppression s data :
  get_prop data "userId" = Normal (VString (userId s)) →
  on_message (Some data) s = (Normal tt, s)
  ∧ step s (StompMessage (Some data)) = s
  ∧ renderer_calls (log (step s (StompMessage (Some data))))
    = renderer_calls (log s).
Proof.
  intros Hid.
  assert (Hr := get_prop_readable _ _ _ Hid).
  assert (Hm : on_message (Some data) s = (Normal tt, s)).
  { rewrite (on_message_readable _ _ Hr).
    rewrite (readable_get_prop _ "userId" Hr) in Hid.
    injection Hid as ->. cbn. by rewrite String.eqb_refl. }
  by rewrite (step_message_dropped _ _ Hm).
Qed.


(** A body that parses to [null] is not an envelope: reading its [userId]
    throws, and the exception leaves the callback. *)
Lemma on_message_null s : on_message (Some VNull) s = (Throw TypeError, s).
Proof. reflexivity. Qed.

(** A body that is not JSON makes [JSON.parse] throw. *)
Lemma on_message_not_json s : on_message None s = (Throw SyntaxError, s).
Proof. reflexivity. Qed.

(** What an envelope from somebody else does to the log. *)
Lemma step_message_other s data :
  is_connected s = true →
  readable data = true →
  strict_eq_string (field data "userId") (userId s) = false →
  log (step s (StompMessage (Some data)))
  = log s ++
    (if strict_eq_string (field data "type") "draw"
     then Ctx <$> inbound_ops data else []) ++
    (if strict_eq_string (field data "type") "clear"
     then [Ctx (ClearRect (VNum (num_of_Z 0)) (VNum (num_of_Z 0))
                          (VNum (canvas_width s)) (VNum (canvas_height s)))]
     else []).
Proof.
  intros Hc Hr Hu. rewrite step_message, Hc. unfold run_handler.
  by rewrite (on_message_readable _ _ Hr), Hu.
Qed.

Lemma field_insert_ne props k k' v :
  k ≠ k' → field (VObject (<[k:=v]> props)) k' = field (VObject props) k'.
Proof. intros Hne. unfold field. cbn. by rewrite lookup_insert_ne. Qed.

(** C2, as the code has it.  The subscription callback never reads
    [sessionId]: replacing (or adding) the [sessionId] of an envelope
    changes nothing in how the event loop handles it.  In particular a
    draw envelope from another participant is painted whatever session it
    names. *)
Theorem inbound_ignores_sessionId s props sid :
  step s (StompMessage (Some (VObject (<["sessionId":=sid]> props))))
  = step s (StompMessage (Some (VObject props)))
  ∧ (is_connected s = true →
     strict_eq_string (field (VObject props) "userId") (userId s) = false →
     strict_eq_string (field (VObject props) "type") "draw" = true →
     renderer_calls
       (log (step s (StompMessage (Some (VObject (<["sessionId":=sid]> props))))))
     = renderer_calls (log s) ++ inbound_ops (VObject props)).
Proof.
  assert (Heq :
    step s (StompMessage (Some (VObject (<["sessionId":=sid]> props))))
    = step s (StompMessage (Some (VObject props)))).
  { rewrite !step_message. destruct (is_connected s); [|done].
    unfold run_handler. rewrite !on_message_readable by done.
    unfold inbound_ops. by rewrite !field_insert_ne by done. }
  split; [done|]. intros Hc Hu Ht. rewrite Heq.
  rewrite step_message_other by done. rewrite Ht.
  assert (strict_eq_string (field (VObject props) "type") "clear" = false)
    as ->.
  { apply strict_eq_string_true in Ht. by rewrite Ht. }
  by rewrite app_nil_r, renderer_calls_app, renderer_calls_Ctx.
Qed.

(** *** History replay *)

Lemma step_history s res :
  history_pending s = true →
  step s (HistoryResponse res)
  = append (history_effects res) (set_history_pending false s).
Proof.
  intros Hp. cbn [step]. rewrite Hp. unfold run_handler.
  by rewrite loadHistory_resume_run.
Qed.

Lemma publishes_replay_effects entries :
  publishes (replay_effects entries).1 = [].
Proof.
  induction entries as [|e rest IH]; [done|]. cbn [replay_effects].
  destruct (readable e); [|done].
  destruct (replay_effects rest) as [l r]. cbn [fst] in *.
  by rewrite publishes_app, publishes_Ctx, IH.
Qed.

Lemma publishes_history_effects res : publishes (history_effects res) = [].
Proof.
  destruct res as [data|err]; [|done]. destruct data; try done.
  cbn [history_effects]. pose proof (publishes_replay_effects items) as Hp.
  destruct (replay_effects items) as [l r]. cbn [fst] in Hp.
  rewrite publishes_app, Hp. by destruct r.
Qed.

(** C7 (replay paints in order, publishes nothing, repeats itself).  When
    the history request resolves with a sequence of entries, the replay
    paints every entry through [drawLine], in stored order, and nothing
    else reaches the renderer; the replay appends no publication to the
    log; and running the replay again on the same sequence makes exactly
    the same renderer calls a second time. *)
Theorem replay_in_order_no_publish s entries :
  Forall (λ e, readable e = true) entries →
  history_pending s = true →
  let res := Normal (VArray entries) in
  renderer_calls (log (step s (HistoryResponse res)))
  = renderer_calls (log s) ++ flat_map replay_ops entries
  ∧ publishes (log (step s (HistoryResponse res))) = publishes (log s)
  ∧ loadHistory_resume res s
    = (Normal tt, append (Ctx <$> flat_map replay_ops entries) s)
  ∧ renderer_calls
      (log (loadHistory_resume res (loadHistory_resume res s).2).2)
    = renderer_calls (log s)
      ++ flat_map replay_ops entries ++ flat_map replay_ops entries.
Proof.
  intros Hr Hp res.
  assert (He : history_effects res = Ctx <$> flat_map replay_ops entries).
  { unfold res, history_effects. rewrite (replay_effects_readable _ Hr).
    by rewrite app_nil_r. }
  rewrite (step_history _ _ Hp), !loadHistory_resume_run, He.
  cbn [snd]. rewrite append_append, !log_append.
  change (log (set_history_pending false s)) with (log s).
  rewrite !renderer_calls_app, !publishes_app, !renderer_calls_Ctx.
  by rewrite publishes_Ctx, app_nil_r.
Qed.

(** Whatever the request settles with, the replay publishes nothing and
    its effects do not depend on the state it starts from. *)
Lemma replay_effects_state_independent res s1 s2 :
  log (loadHistory_resume res s1).2 = log s1 ++ history_effects res
  ∧ log (loadHistory_resume res s2).2 = log s2 ++ history_effects res
  ∧ publishes (history_effects res) = [].
Proof.
  rewrite !loadHistory_resume_run. split_and!; try done.
  apply publishes_history_effects.
Qed.

(** C10 (default tool on replay).  For a readable history entry the replay
    calls [drawLine] with the entry's own fields and, as tool, the entry's
    [tool] when that is truthy and ["draw"] otherwise; the call returns
    normally.  With a missing or falsy [tool] the paint is therefore the
    draw-mode one: source-over, in the entry's colour. *)
Theorem replay_defaults_tool_to_draw e s :
  readable e = true →
  replay_entry e s
  = (Normal tt,
     append
       (Ctx <$> drawLine_ops (field e "startX") (field e "startY")
                  (field e "endX") (field e "endY")
                  (field e "color") (field e "lineWidth")
                  (if truthy (field e "tool") then field e "tool"
                   else VString "draw"))
       s)
  ∧ (truthy (field e "tool") = false →
     replay_ops e
     = [Save; SetGlobalCompositeOperation "source-over";
        SetStrokeStyle (field e "color"); SetLineWidth (field e "lineWidth");
        SetLineCap "round"; SetLineJoin "round"; BeginPath;
        MoveTo (field e "startX") (field e "startY");
        LineTo (field e "endX") (field e "endY"); Stroke; Restore]).
Proof.
  intros Hr. split; [by rewrite (replay_entry_run _ _ Hr)|].
  intros Hf. unfold replay_ops, js_or. by rewrite Hf.
Qed.

(** A missing [tool] reads as [undefined], which is falsy. *)
Lemma missing_tool_falsy props :
  props !! "tool" = None → truthy (field (VObject props) "tool") = false.
Proof. intros Hn. unfold field. cbn. by rewrite Hn. Qed.

(** *** The event loop *)

Lemma on_message_unreadable data s :
  readable data = false → on_message (Some data) s = (Throw TypeError, s).
Proof. by destruct data. Qed.

Lemma publishes_segment_effects s a b :
  is_connected s = false → publishes (segment_effects s a b) = [].
Proof.
  intros Hc. unfold segment_effects.
  by rewrite Hc, app_nil_r, publishes_Ctx.
Qed.

(** Every event appends to the log, and only a pointer move or a click on
    Clear, with the broker connected, appends a publication. *)
Lemma step_effects s ev :
  ∃ d, log (step s ev) = log s ++ d
       ∧ (is_connected s = false ∨ publishing_event ev = false →
          publishes d = []).
Proof.
  destruct ev; cbn [step publishing_event]; unfold run_handler.
  - eexists. split; [by rewrite resizeCanvas_run|done].
  - destruct (history_pending s) eqn:Hp.
    + exists (history_effects res). unfold run_handler.
      rewrite loadHistory_resume_run.
      split; [done|]. intros _. apply publishes_history_effects.
    + exists []. by rewrite app_nil_r.
  - destruct (stompClientRef s).
    + eexists. unfold run_handler. rewrite onConnect_run.
      split; [reflexivity|done].
    + exists []. by rewrite app_nil_r.
  - exists []. rewrite app_nil_r. by destruct (stompClientRef s).
  - destruct (is_connected s); [|exists []; by rewrite app_nil_r].
    unfold run_handler. destruct parsed as [data|].
    + destruct (readable data) eqn:Hr.
      * rewrite (on_message_readable _ _ Hr).
        destruct (strict_eq_string (field data "userId") _).
        { exists []. by rewrite app_nil_r. }
        eexists. split; [reflexivity|]. intros _.
        rewrite publishes_app.
        destruct (strict_eq_string _ "draw"),
                 (strict_eq_string _ "clear");
          by rewrite ?publishes_Ctx.
      * rewrite (on_message_unreadable _ _ Hr). by eexists.
    + by eexists.
  - exists []. by rewrite app_nil_r.
  - unfold run_handler. rewrite draw_run. destruct (isDrawing s).
    + eexists. split; [reflexivity|]. intros [Hc|]; [|done].
      by apply publishes_segment_effects.
    + exists []. by rewrite app_nil_r.
  - exists []. by rewrite app_nil_r.
  - exists []. by rewrite app_nil_r.
  - exists []. by rewrite app_nil_r.
  - exists []. by rewrite app_nil_r.
  - exists []. by rewrite app_nil_r.
  - exists []. by rewrite app_nil_r.
  - unfold run_handler. rewrite handleClear_run.
    eexists. split; [reflexivity|]. intros [Hc|]; [|done]. by rewrite Hc.
  - destruct (deletes_pending s); [exists []; by rewrite app_nil_r|].
    destruct ok; [exists []; by rewrite app_nil_r|]. by eexists.
Qed.

Lemma run_cons s ev evs : run s (ev :: evs) = run (step s ev) evs.
Proof. reflexivity. Qed.

Lemma run_app s evs1 evs2 : run s (evs1 ++ evs2) = run (run s evs1) evs2.
Proof. apply foldl_app. Qed.

Lemma run_log_grows evs s : log s `prefix_of` log (run s evs).
Proof.
  revert s. induction evs as [|ev evs IH]; intros s; [done|].
  rewrite run_cons. etrans; [|apply IH].
  destruct (step_effects s ev) as (d & -> & _). by eexists.
Qed.

(** Without a pointer move or a click on Clear nothing is published. *)
Lemma run_publishes evs s :
  Forall (λ ev, publishing_event ev = false) evs →
  publishes (log (run s evs)) = publishes (log s).
Proof.
  intros Hq. revert s. induction Hq as [|ev evs Hev _ IH]; intros s; [done|].
  rewrite run_cons, IH.
  destruct (step_effects s ev) as (d & -> & Hd).
  by rewrite publishes_app, Hd, app_nil_r by by right.
Qed.

Lemma useEffect_run r s :
  useEffect r s
  = (Normal tt,
     set_stompClientRef (Some {| connected := false |})
       (append [Activate]
          (set_history_pending true
             (append
                [HttpGet (API_URL +:+ "/api/whiteboard/history/"
                          +:+ SESSION_ID)]
                (set_canvas_size (width r) (height r)
                   (append [SetCanvasSize (width r) (height r)] s)))))).
Proof. reflexivity. Qed.

Lemma mounted_log uid r :
  log (mounted uid r)
  = [SetCanvasSize (width r) (height r);
     HttpGet (API_URL +:+ "/api/whiteboard/history/" +:+ SESSION_ID);
     Activate].
Proof. reflexivity. Qed.

(** C3, as the code has it.  The effect starts the history request and
    activates the broker client in the same turn, without waiting for
    the response.  Whenever the response [segment1, segment2] arrives, the
    replay paints segment1 and then segment2, with no other renderer call
    between or after them in that turn; by then the client has already
    been activated, so connection, subscription and live paints may all
    precede the two history paints. *)
Theorem history_replay_after_activation uid r evs segment1 segment2 :
  let s := run (mounted uid r) evs in
  readable segment1 = true →
  readable segment2 = true →
  history_pending s = true →
  renderer_calls
    (log (step s (HistoryResponse (Normal (VArray [segment1; segment2])))))
  = renderer_calls (log s) ++ replay_ops segment1 ++ replay_ops segment2
  ∧ Activate ∈ log s
  ∧ renderer_calls (log (mounted uid r)) = [].
Proof.
  intros s Hr1 Hr2 Hp. split_and!; [| |done].
  - rewrite (step_history _ _ Hp), log_append.
    change (log (set_history_pending false s)) with (log s).
    unfold history_effects. cbn [replay_effects]. rewrite Hr1, Hr2. cbn [fst snd].
    by rewrite !app_nil_r, !renderer_calls_app, !renderer_calls_Ctx.
  - destruct (run_log_grows evs (mounted uid r)) as [d Hd].
    fold s in Hd. rewrite Hd, mounted_log. set_solver.
Qed.

(** *** Publishing *)

Lemma step_move s p :
  step s (mouse_move p)
  = if isDrawing s
    then set_lastPos (pointer_pos p)
           (append (segment_effects s (lastPos s) (pointer_pos p)) s)
    else s.
Proof.
  unfold mouse_move, pointer_pos. cbn [step]. unfold run_handler.
  rewrite draw_run. by destruct (isDrawing s).
Qed.

Lemma step_clear s :
  step s ClickClear
  = set_deletes_pending (S (deletes_pending s))
      (append
         ([Ctx (ClearRect (VNum (num_of_Z 0)) (VNum (num_of_Z 0))
                          (VNum (canvas_width s)) (VNum (canvas_height s)))]
          ++ (if is_connected s
              then [Publish "/app/draw" (clear_envelope (userId s))]
              else [])
          ++ [HttpDelete
                (API_URL +:+ "/api/whiteboard/clear/" +:+ SESSION_ID)])
         s).
Proof. cbn [step]. unfold run_handler. by rewrite handleClear_run. Qed.

(** C5 (publishing while disconnected).  With no connected client the
    guarded publish does nothing at all: it returns normally and leaves
    the state as it was.  So a pointer move and a click on Clear append no
    publication and no uncaught exception to the log, and nothing is kept
    for later: whatever events follow, short of a new move or clear,
    reconnection included, the published frames stay as they were. *)
Theorem disconnected_publish_noop s body :
  is_connected s = false →
  publish_if_connected body s = (Normal tt, s)
  ∧ (∀ p, publishes (log (step s (mouse_move p))) = publishes (log s)
          ∧ uncaught (log (step s (mouse_move p))) = uncaught (log s))
  ∧ publishes (log (step s ClickClear)) = publishes (log s)
  ∧ uncaught (log (step s ClickClear)) = uncaught (log s)
  ∧ (∀ p evs, Forall (λ ev, publishing_event ev = false) evs →
       publishes (log (run (step s (mouse_move p)) evs)) = publishes (log s))
  ∧ (∀ evs, Forall (λ ev, publishing_event ev = false) evs →
       publishes (log (run (step s ClickClear) evs)) = publishes (log s)).
Proof.
  intros Hc.
  assert (Hmove : ∀ p,
    publishes (log (step s (mouse_move p))) = publishes (log s)
    ∧ uncaught (log (step s (mouse_move p))) = uncaught (log s)).
  { intros p. rewrite step_move. destruct (isDrawing s); [|done].
    change (log (set_lastPos ?q ?t)) with (log t). rewrite log_append.
    unfold segment_effects. rewrite Hc, app_nil_r.
    rewrite publishes_app, uncaught_app, publishes_Ctx, uncaught_Ctx.
    by rewrite !app_nil_r. }
  assert (Hclear :
    publishes (log (step s ClickClear)) = publishes (log s)
    ∧ uncaught (log (step s ClickClear)) = uncaught (log s)).
  { rewrite step_clear.
    change (log (set_deletes_pending ?n ?t)) with (log t).
    rewrite log_append, Hc, publishes_app, uncaught_app. cbn.
    by rewrite !app_nil_r. }
  split_and!.
  - rewrite publish_if_connected_run, Hc. by rewrite append_nil.
  - done.
  - apply Hclear.
  - apply Hclear.
  - intros p evs Hq. rewrite (run_publishes _ _ Hq). apply Hmove.
  - intros evs Hq. rewrite (run_publishes _ _ Hq). apply Hclear.
Qed.

(** *** Gestures *)

Lemma set_lastPos_append_twice q p l1 l2 s :
  set_lastPos q (append l2 (set_lastPos p (append l1 s)))
  = set_lastPos q (append (l1 ++ l2) s).
Proof. unfold set_lastPos, append, set_log. cbn. by rewrite app_assoc. Qed.

Lemma set_lastPos_id s : set_lastPos (lastPos s) (append [] s) = s.
Proof. rewrite append_nil. by destruct s. Qed.

Lemma last_cons_anchor {A} (a d : A) l : List.last (a :: l) d = List.last l a.
Proof.
  revert a d. induction l as [|b l IH]; intros a d; [done|].
  change (List.last (a :: b :: l) d) with (List.last (b :: l) d).
  by rewrite !IH.
Qed.

(** A run of pointer moves while drawing. *)
Lemma run_moves moves s :
  isDrawing s = true →
  run s (mouse_move <$> moves)
  = set_lastPos (List.last (pointer_pos <$> moves) (lastPos s))
      (append (gesture_effects s (lastPos s) (pointer_pos <$> moves)) s).
Proof.
  revert s. induction moves as [|p rest IH]; intros s Hd.
  { symmetry. apply set_lastPos_id. }
  rewrite fmap_cons, run_cons, step_move, Hd.
  rewrite IH by done.
  change (lastPos (set_lastPos ?q ?t)) with q.
  rewrite set_lastPos_append_twice. f_equal.
  by rewrite fmap_cons, last_cons_anchor.
Qed.

Lemma gesture_segments_length a ps :
  length (gesture_segments a ps) = length ps.
Proof. revert a. induction ps as [|p ps IH]; intros a; cbn; by rewrite ?IH. Qed.

Lemma gesture_segments_chain a ps i s1 s2 :
  gesture_segments a ps !! i = Some s1 →
  gesture_segments a ps !! S i = Some s2 →
  s2.1 = s1.2.
Proof.
  revert a i. induction ps as [|p ps IH]; intros a i; [done|].
  destruct i as [|i]; cbn.
  - intros [= <-]. destruct ps as [|p' ps]; [done|]. cbn. by intros [= <-].
  - apply IH.
Qed.

Lemma gesture_segments_end a ps i seg p :
  gesture_segments a ps !! i = Some seg → ps !! i = Some p → seg.2 = p.
Proof.
  revert a i. induction ps as [|p' ps IH]; intros a i; [done|].
  destruct i as [|i]; cbn.
  - by intros [= <-] [= <-].
  - apply IH.
Qed.

(** C6 (anchors chain within a gesture).  A pointer-down followed by N
    move samples emits exactly N segments, each painted locally and, with
    the broker connected, published: the first starts at the pointer-down
    position, every later one starts where the one before it ended, and
    segment i ends at sample i.  Releasing the pointer or leaving the
    canvas emits nothing, and moves after that emit nothing either. *)
Theorem gesture_anchors_chain s down moves :
  let anchor := pointer_pos down in
  let segs := gesture_segments anchor (pointer_pos <$> moves) in
  let s' := run s (mouse_down down :: (mouse_move <$> moves)) in
  log s' = log s ++ flat_map (λ seg, segment_effects s seg.1 seg.2) segs
  ∧ length segs = length moves
  ∧ (∀ seg, segs !! 0%nat = Some seg → seg.1 = anchor)
  ∧ (∀ i a b, segs !! i = Some a → segs !! S i = Some b → b.1 = a.2)
  ∧ (∀ i seg p, segs !! i = Some seg → moves !! i = Some p →
       seg.2 = pointer_pos p)
  ∧ log (step s' MouseUp) = log s'
  ∧ log (step s' MouseLeave) = log s'
  ∧ (∀ p, log (step (step s' MouseUp) (mouse_move p)) = log s')
  ∧ (∀ p, log (step (step s' MouseLeave) (mouse_move p)) = log s').
Proof.
  intros anchor segs s'. split_and!.
  - unfold s'. rewrite run_cons. unfold mouse_down at 1. cbn [step].
    unfold run_handler. rewrite startDrawing_run, run_moves by done.
    reflexivity.
  - unfold segs. by rewrite gesture_segments_length, length_fmap.
  - unfold segs. destruct (pointer_pos <$> moves); [done|]. by intros ? [= <-].
  - intros i a b. apply gesture_segments_chain.
  - intros i seg p Hs Hm. eapply gesture_segments_end; [exact Hs|].
    by rewrite list_lookup_fmap, Hm.
  - done.
  - done.
  - intros p. by rewrite step_move.
  - intros p. by rewrite step_move.
Qed.

(** *** Clearing the board *)

(** C8 (clear: wipe, publish, delete; no rollback).  A click on Clear
    appends to the log, in this order, the wipe of the local surface, the
    publication of the clear envelope when the broker is connected (nothing
    otherwise), and the DELETE request to the history store.  When that
    request later fails, the only new effect is the rejection of the
    promise: the renderer calls and the published frames stay as they were
    after the click. *)
Theorem clear_sequence_no_rollback s :
  let wipe :=
    ClearRect (VNum (num_of_Z 0)) (VNum (num_of_Z 0))
              (VNum (canvas_width s)) (VNum (canvas_height s)) in
  let s1 := step s ClickClear in
  log s1
  = log s ++ [Ctx wipe]
    ++ (if is_connected s
        then [Publish "/app/draw" (clear_envelope (userId s))] else [])
    ++ [HttpDelete (API_URL +:+ "/api/whiteboard/clear/" +:+ SESSION_ID)]
  ∧ log (step s1 (DeleteResponse false)) = log s1 ++ [Uncaught RequestError]
  ∧ log (step s1 (DeleteResponse true)) = log s1
  ∧ (∀ ok, renderer_calls (log (step s1 (DeleteResponse ok)))
           = renderer_calls (log s) ++ [wipe]
         ∧ publishes (log (step s1 (DeleteResponse ok)))
           = publishes (log s1)).
Proof.
  intros wipe s1.
  assert (Hlog : log s1 = log s ++ [Ctx wipe]
    ++ (if is_connected s
        then [Publish "/app/draw" (clear_envelope (userId s))] else [])
    ++ [HttpDelete (API_URL +:+ "/api/whiteboard/clear/" +:+ SESSION_ID)]).
  { unfold s1. by rewrite step_clear. }
  assert (Hresp : ∀ ok, log (step s1 (DeleteResponse ok))
    = log s1 ++ if ok then [] else [Uncaught RequestError]).
  { intros ok. unfold s1. rewrite step_clear. cbn [step].
    cbn [deletes_pending set_deletes_pending]. destruct ok; [|done].
    cbn. by rewrite app_nil_r. }
  split_and!; [done|apply Hresp|by rewrite Hresp, app_nil_r|].
  intros ok. rewrite Hresp, renderer_calls_app, publishes_app.
  assert (renderer_calls (if ok then [] else [Uncaught RequestError]) = [])
    as -> by by destruct ok.
  assert (publishes (if ok then [] else [Uncaught RequestError]) = [])
    as -> by by destruct ok.
  rewrite !app_nil_r. split; [|done].
  rewrite Hlog, !renderer_calls_app. by destruct (is_connected s).
Qed.

(** *** The painter *)

(** C9 (erase ignores colour).  With tool ["erase"], [drawLine] makes the
    same context calls, and returns the same result in the same state,
    whatever colour it is given. *)
Theorem erase_ignores_color x1 y1 x2 y2 c1 c2 w s :
  drawLine_ops x1 y1 x2 y2 c1 w (VString "erase")
  = drawLine_ops x1 y1 x2 y2 c2 w (VString "erase")
  ∧ drawLine x1 y1 x2 y2 c1 w (VString "erase") s
    = drawLine x1 y1 x2 y2 c2 w (VString "erase") s.
Proof. split; [done|]. by rewrite !drawLine_run. Qed.

End Properties.

(** ** The theorems at the sample data *)

Lemma echo_suppression_witness :
  get_prop echoed_draw "userId" = Normal (VString (userId alice))
  ∧ step alice (StompMessage (Some echoed_draw)) = alice.
Proof.
  split; [reflexivity|].
  apply (echo_suppression alice echoed_draw). reflexivity.
Defined.


(** C2 fails on the code: Bob's segment names another session than the one
    Alice is in, and her renderer paints it all the same. *)
Lemma session_isolation_counterexample :
  field foreign_draw "sessionId" = VString "other-session"
  ∧ field foreign_draw "sessionId" ≠ VString SESSION_ID
  ∧ renderer_calls (log alice) = []
  ∧ renderer_calls (log (step alice (StompMessage (Some foreign_draw))))
    = sample_ops 0 0 10 10 "draw"
  ∧ renderer_calls (log (step alice (StompMessage (Some foreign_draw))))
    ≠ renderer_calls (log alice).
Proof. split_and!; try reflexivity; discriminate. Qed.

Lemma inbound_ignores_sessionId_witness :
  is_connected alice = true
  ∧ renderer_calls (log (step alice (StompMessage (Some foreign_draw))))
    = renderer_calls (log alice)
      ++ inbound_ops (VObject (sample_fields "user-bob00002" 0 0 10 10 "draw")).
Proof.
  split; [reflexivity|].
  apply (proj2 (inbound_ignores_sessionId alice
                  (sample_fields "user-bob00002" 0 0 10 10 "draw")
                  (VString "other-session"))); reflexivity.
Defined.

(** C3 fails on the code: Carol's client connects and subscribes, and a
    live segment from Bob is painted, while her history request is still
    pending; the two stored segments are painted after that. *)
Lemma history_before_live_counterexample :
  let s1 := run carol [StompConnected; StompMessage (Some live_draw)] in
  is_connected s1 = true
  ∧ history_pending s1 = true
  ∧ log s1
    = [@SetCanvasSize Z_Number 800 600;
       HttpGet "http://localhost:8080/api/whiteboard/history/default-session";
       Activate; ConsoleLog "STOMP connected"; Subscribe "/topic/whiteboard"]
      ++ (Ctx <$> sample_ops 50 50 60 60 "draw")
  ∧ renderer_calls
      (log (step s1 (HistoryResponse (Normal (VArray [segment1; segment2])))))
    = sample_ops 50 50 60 60 "draw"
      ++ sample_ops 0 0 10 10 "draw" ++ sample_ops 10 10 20 5 "erase".
Proof. split_and!; reflexivity. Qed.

Lemma history_replay_after_activation_witness :
  let s := run carol [StompConnected; StompMessage (Some live_draw)] in
  history_pending s = true
  ∧ renderer_calls
      (log (step s (HistoryResponse (Normal (VArray [segment1; segment2])))))
    = renderer_calls (log s) ++ replay_ops segment1 ++ replay_ops segment2
  ∧ Activate ∈ log s.
Proof.
  split; [reflexivity|].
  pose proof (history_replay_after_activation "user-carol003" sample_rect
                [StompConnected; StompMessage (Some live_draw)]
                segment1 segment2 eq_refl eq_refl eq_refl) as (Hp & Ha & _).
  split; [exact Hp|exact Ha].
Defined.

Lemma disconnected_publish_noop_witness :
  is_connected carol = false
  ∧ publish_if_connected (clear_envelope (userId carol)) carol
    = (Normal tt, carol)
  ∧ publishes (log (run (step carol ClickClear)
                        [StompConnected; DeleteResponse true]))
    = publishes (log carol).
Proof.
  split; [reflexivity|].
  pose proof (disconnected_publish_noop carol
                (clear_envelope (userId carol)) eq_refl)
    as (Hp & _ & _ & _ & _ & Hq).
  split; [exact Hp|]. apply Hq. repeat constructor.
Defined.

Lemma replay_in_order_no_publish_witness :
  history_pending carol = true
  ∧ renderer_calls
      (log (step carol (HistoryResponse (Normal (VArray [segment1; segment2])))))
    = renderer_calls (log carol)
      ++ flat_map replay_ops [segment1; segment2]
  ∧ publishes
      (log (step carol (HistoryResponse (Normal (VArray [segment1; segment2])))))
    = publishes (log carol).
Proof.
  split; [reflexivity|].
  assert (Hr : Forall (λ e, readable e = true) [segment1; segment2])
    by (repeat constructor).
  pose proof (replay_in_order_no_publish carol [segment1; segment2] Hr eq_refl)
    as (Hc & Hp & _).
  split; [exact Hc|exact Hp].
Defined.

Lemma replay_defaults_tool_to_draw_witness :
  readable toolless_entry = true
  ∧ truthy (field toolless_entry "tool") = false
  ∧ replay_ops toolless_entry
    = [Save; SetGlobalCompositeOperation "source-over";
       SetStrokeStyle (VString "#ff0000"); SetLineWidth (znum 6);
       SetLineCap "round"; SetLineJoin "round"; BeginPath;
       MoveTo (znum 1) (znum 2); LineTo (znum 3) (znum 4); Stroke; Restore].
Proof.
  split; [reflexivity|]. split; [reflexivity|].
  apply (proj2 (replay_defaults_tool_to_draw toolless_entry carol eq_refl)).
  reflexivity.
Defined.

(** *** Sample runs *)

(** One gesture on Alice's canvas: down at (5,5) on the surface, two
    samples, release, a stray move.  Two segments are painted and
    published; the second starts where the first ends. *)
Example gesture_run :
  let s := run alice [mouse_down (sample_pointer 15 25);
                      mouse_move (sample_pointer 20 30);
                      mouse_move (sample_pointer 25 28);
                      MouseUp;
                      mouse_move (sample_pointer 90 90)] in
  renderer_calls (log s)
  = drawLine_ops (znum 5) (znum 5) (znum 10) (znum 10)
                 (VString "#2D3748") (znum 4) (VString "draw")
    ++ drawLine_ops (znum 10) (znum 10) (znum 15) (znum 8)
                    (VString "#2D3748") (znum 4) (VString "draw")
  ∧ length (publishes (log s)) = 2%nat.
Proof. split; reflexivity. Qed.

(** A replay stops at the first entry that is [null]; the error is logged
    and later entries are not painted. *)
Example replay_stops_at_null :
  log (step carol (HistoryResponse (Normal (VArray [segment1; VNull; segment2]))))
  = log carol ++ (Ctx <$> sample_ops 0 0 10 10 "draw")
    ++ [ConsoleError "History load failed" TypeError].
Proof. reflexivity. Qed.

(** A failed history request is logged and the canvas stays empty. *)
Example replay_request_failed :
  log (step carol (HistoryResponse (Throw RequestError)))
  = log carol ++ [ConsoleError "History load failed" RequestError].
Proof. reflexivity. Qed.

(** Clearing while connected, then a failed DELETE. *)
Example clear_run :
  log (run alice [ClickClear; DeleteResponse false])
  = log alice
    ++ [Ctx (ClearRect (znum 0) (znum 0) (znum 800) (znum 600));
        Publish "/app/draw" (clear_envelope "user-alice001");
        HttpDelete "http://localhost:8080/api/whiteboard/clear/default-session";
        Uncaught RequestError].
Proof. reflexivity. Qed.

(** ** Further properties of the component *)

Section Further.
Context `{Number}.

(** *** One event, as log and state *)

Lemma on_message_run parsed s :
  on_message parsed s
  = (message_completion parsed, append (message_paints s parsed) s).
Proof.
  destruct parsed as [data|]; cbn [message_completion message_paints];
    [|by rewrite append_nil].
  destruct (readable data) eqn:Hr.
  - rewrite (on_message_readable _ _ Hr).
    destruct (strict_eq_string (field data "userId") _); [|done].
    by rewrite append_nil.
  - by rewrite (on_message_unreadable _ _ Hr), append_nil.
Qed.

Lemma step_split s ev : step s ev = append (step_log s ev) (step_state s ev).
Proof.
  destruct ev; cbn [step step_log step_state]; unfold run_handler.
  - by rewrite resizeCanvas_run.
  - destruct (history_pending s); [|by rewrite append_nil].
    by rewrite loadHistory_resume_run.
  - destruct (stompClientRef s); [|by rewrite append_nil].
    by rewrite onConnect_run.
  - destruct (stompClientRef s); by rewrite append_nil.
  - destruct (is_connected s); [|by rewrite append_nil].
    rewrite on_message_run.
    destruct (message_completion parsed); cbn [reported].
    + by rewrite app_nil_r.
    + by rewrite <- append_append.
  - by rewrite startDrawing_run, append_nil.
  - rewrite draw_run. destruct (isDrawing s); [done|by rewrite append_nil].
  - by rewrite append_nil.
  - by rewrite append_nil.
  - by rewrite append_nil.
  - by rewrite append_nil.
  - by rewrite append_nil.
  - by rewrite append_nil.
  - by rewrite handleClear_run.
  - destruct (deletes_pending s); [by rewrite append_nil|].
    destruct ok; [by rewrite append_nil|done].
Qed.

Lemma step_log_eq s ev : log (step s ev) = log s ++ step_log s ev.
Proof.
  rewrite step_split, log_append. f_equal.
  destruct ev; cbn [step_state]; try done;
    repeat match goal with |- context [match ?c with _ => _ end] =>
      destruct c end; done.
Qed.

Lemma step_besides_log s ev :
  besides_log (step s ev) = besides_log (step_state s ev).
Proof. by rewrite step_split. Qed.

Lemma requests_app l1 l2 : requests (l1 ++ l2) = requests l1 ++ requests l2.
Proof. apply omap_app. Qed.

Lemma requests_Ctx ops : requests (Ctx <$> ops) = [].
Proof. induction ops as [|op ops IH]; [done|]. apply IH. Qed.

Lemma subscriptions_app l1 l2 :
  subscriptions (l1 ++ l2) = subscriptions l1 ++ subscriptions l2.
Proof. apply omap_app. Qed.

Lemma subscriptions_Ctx ops : subscriptions (Ctx <$> ops) = [].
Proof. induction ops as [|op ops IH]; [done|]. apply IH. Qed.

Lemma console_errors_app l1 l2 :
  console_errors (l1 ++ l2) = console_errors l1 ++ console_errors l2.
Proof. apply omap_app. Qed.

Lemma console_errors_Ctx ops : console_errors (Ctx <$> ops) = [].
Proof. induction ops as [|op ops IH]; [done|]. apply IH. Qed.

(** The paints of a message are context calls and nothing else. *)
Lemma message_paints_Ctx s parsed :
  message_paints s parsed = Ctx <$> renderer_calls (message_paints s parsed).
Proof.
  destruct parsed as [data|]; [|done]. cbn [message_paints].
  destruct (readable data); [|done].
  destruct (strict_eq_string (field data "userId") _); [done|].
  rewrite renderer_calls_app, fmap_app.
  destruct (strict_eq_string _ "draw"), (strict_eq_string _ "clear");
    by rewrite ?renderer_calls_Ctx.
Qed.

(** *** Inbound messages *)

(** X1.  Whatever arrives on the topic, handling it only paints (and
    reports an exception, if the callback throws): nothing is published,
    no HTTP request is issued, no subscription is made, and everything in
    the state but the log stays as it was, the gesture in progress
    included. *)
Theorem inbound_only_paints s parsed :
  let s' := step s (StompMessage parsed) in
  publishes (log s') = publishes (log s)
  ∧ requests (log s') = requests (log s)
  ∧ subscriptions (log s') = subscriptions (log s)
  ∧ besides_log s' = besides_log s.
Proof.
  intros s'. unfold s'. rewrite step_besides_log, step_log_eq.
  cbn [step_log step_state]. split_and!; [| | |done].
  all: destruct (is_connected s); [|by rewrite app_nil_r].
  all: rewrite message_paints_Ctx.
  all: rewrite ?publishes_app, ?requests_app, ?subscriptions_app.
  all: rewrite ?publishes_Ctx, ?requests_Ctx, ?subscriptions_Ctx.
  all: destruct (message_completion parsed); by rewrite !app_nil_r.
Qed.


(** *** The painter's two modes *)

Lemma erase_test_js_or t :
  strict_eq_string
    (default_param (js_or t (VString "draw")) (VString "draw")) "erase"
  = strict_eq_string (default_param t (VString "draw")) "erase".
Proof.
  unfold js_or. destruct t as [| |b|n|str| |]; cbn; try done.
  - by destruct b.
  - by destruct (num_truthy n).
  - destruct str; [done|]. reflexivity.
Qed.

(** X3.  [drawLine] erases exactly when its tool is the string ["erase"]:
    then the stroke is destination-out in opaque black.  With any other
    tool, a missing one or an unknown name included, the stroke is
    source-over in the given colour. *)
Theorem drawLine_mode x1 y1 x2 y2 c w t s :
  (t = VString "erase" →
   drawLine x1 y1 x2 y2 c w t s
   = (Normal tt, append (Ctx <$> erase_mode_ops x1 y1 x2 y2 w) s))
  ∧ (t ≠ VString "erase" →
     drawLine x1 y1 x2 y2 c w t s
     = (Normal tt, append (Ctx <$> draw_mode_ops x1 y1 x2 y2 c w) s)).
Proof.
  rewrite drawLine_run. split.
  - by intros ->.
  - intros Hne. unfold drawLine_ops.
    rewrite strict_eq_string_false; [done|]. by destruct t.
Qed.

(** X4.  A stored entry is replayed with exactly the context calls with
    which the same envelope is painted when it arrives live: the default
    ["draw"] the replay puts in for a falsy tool selects the mode that
    [drawLine] picks for that tool anyway. *)
Theorem replay_paints_like_live e p q :
  readable e = true →
  is_connected p = true →
  strict_eq_string (field e "userId") (userId p) = false →
  strict_eq_string (field e "type") "draw" = true →
  history_pending q = true →
  replay_ops e = inbound_ops e
  ∧ renderer_calls (log (step p (StompMessage (Some e))))
    = renderer_calls (log p) ++ inbound_ops e
  ∧ renderer_calls (log (step q (HistoryResponse (Normal (VArray [e])))))
    = renderer_calls (log q) ++ inbound_ops e.
Proof.
  intros Hr Hc Hu Ht Hq.
  assert (Heq : replay_ops e = inbound_ops e).
  { unfold replay_ops, inbound_ops, drawLine_ops.
    by rewrite erase_test_js_or. }
  split_and!; [done| |].
  - rewrite step_message_other by done. rewrite Ht.
    assert (strict_eq_string (field e "type") "clear" = false) as ->.
    { apply strict_eq_string_true in Ht. by rewrite Ht. }
    by rewrite app_nil_r, renderer_calls_app, renderer_calls_Ctx.
  - rewrite step_log_eq. cbn [step_log]. rewrite Hq.
    unfold history_effects. cbn [replay_effects]. rewrite Hr.
    cbn [replay_effects].
    by rewrite !app_nil_r, renderer_calls_app, renderer_calls_Ctx, Heq.
Qed.

(** *** What is published, and what a peer makes of it *)

Lemma inbound_ops_draw_envelope uid a b c w t :
  inbound_ops (draw_envelope uid a b c w t)
  = drawLine_ops (VNum (x a)) (VNum (y a)) (VNum (x b)) (VNum (y b))
                 (VString c) (VNum w) (VString t).
Proof. reflexivity. Qed.

Lemma draw_envelope_tagged uid a b c w t :
  tagged uid ("/app/draw", draw_envelope uid a b c w t).
Proof. split_and!; try reflexivity. by left. Qed.

Lemma clear_envelope_tagged uid : tagged uid ("/app/draw", clear_envelope uid).
Proof. split_and!; try reflexivity. by right. Qed.

(** X5.  A pointer move made while drawing with the broker connected is
    painted locally and published once; a peer that receives the
    published envelope makes exactly the context calls the sender made
    for that move, and the sender, receiving its own envelope back, does
    nothing. *)
Theorem published_segment_repainted_by_peer s p q :
  isDrawing s = true →
  is_connected s = true →
  is_connected p = true →
  userId p ≠ userId s →
  let env := draw_envelope (userId s) (lastPos s) (pointer_pos q)
                           (color s) (lineWidth s) (tool s) in
  let ops := drawLine_ops (VNum (x (lastPos s))) (VNum (y (lastPos s)))
                          (VNum (x (pointer_pos q))) (VNum (y (pointer_pos q)))
                          (VString (color s)) (VNum (lineWidth s))
                          (VString (tool s)) in
  log (step s (mouse_move q))
  = log s ++ (Ctx <$> ops) ++ [Publish "/app/draw" env]
  ∧ renderer_calls (log (step p (StompMessage (Some env))))
    = renderer_calls (log p) ++ ops
  ∧ step (step s (mouse_move q)) (StompMessage (Some env))
    = step s (mouse_move q).
Proof.
  intros Hd Hc Hp Hne env ops. split_and!.
  - rewrite step_move, Hd.
    change (log (set_lastPos ?a ?t)) with (log t).
    rewrite log_append. unfold segment_effects. by rewrite Hc.
  - rewrite step_message_other; [|done|done|].
    + change (strict_eq_string (field env "type") "draw") with true.
      change (strict_eq_string (field env "type") "clear") with false.
      rewrite app_nil_r, renderer_calls_app, renderer_calls_Ctx.
      unfold env. by rewrite inbound_ops_draw_envelope.
    + change (field env "userId") with (VString (userId s)).
      cbn. apply String.eqb_neq. congruence.
  - apply step_message_dropped. rewrite on_message_readable by done.
    change (field env "userId") with (VString (userId s)).
    rewrite step_move, Hd. cbn [strict_eq_string].
    change (userId (set_lastPos ?a (append ?l s))) with (userId s).
    by rewrite String.eqb_refl.
Qed.

(** X6.  A click on Clear with the broker connected publishes one clear
    envelope; a peer that receives it wipes its own canvas, over its own
    current size, and neither publishes nor sends any HTTP request; the
    sender, receiving its own envelope back, does nothing. *)
Theorem published_clear_wipes_peer s p :
  is_connected s = true →
  is_connected p = true →
  userId p ≠ userId s →
  let env := clear_envelope (userId s) in
  publishes (log (step s ClickClear))
  = publishes (log s) ++ [("/app/draw", env)]
  ∧ log (step p (StompMessage (Some env)))
    = log p ++ [Ctx (ClearRect (VNum (num_of_Z 0)) (VNum (num_of_Z 0))
                               (VNum (canvas_width p))
                               (VNum (canvas_height p)))]
  ∧ step (step s ClickClear) (StompMessage (Some env)) = step s ClickClear.
Proof.
  intros Hc Hp Hne env. split_and!.
  - rewrite step_log_eq. cbn [step_log]. unfold clear_effects.
    rewrite Hc. by rewrite publishes_app.
  - rewrite step_message_other; [done|done|done|].
    change (field env "userId") with (VString (userId s)).
    cbn. apply String.eqb_neq. congruence.
  - apply step_message_dropped. rewrite on_message_readable by done.
    change (field env "userId") with (VString (userId s)).
    rewrite step_clear. cbn [strict_eq_string].
    change (userId (set_deletes_pending ?n (append ?l s))) with (userId s).
    by rewrite String.eqb_refl.
Qed.

(** *** History replay, in general *)

Lemma replay_effects_prefix entries :
  replay_effects entries
  = (Ctx <$> flat_map replay_ops (readable_prefix entries),
     if forallb readable entries then None else Some TypeError).
Proof.
  induction entries as [|e rest IH]; [done|].
  cbn [replay_effects readable_prefix forallb].
  destruct (readable e); [|done].
  rewrite IH. cbn [flat_map andb]. by rewrite fmap_app.
Qed.

(** X7.  When the history request resolves with an array, the replay
    paints the entries before the first [null] (or [undefined]) one, in
    order, and none after it; the error is logged once, through
    [console.error], exactly when there is such an entry; no exception
    leaves the handler. *)
Theorem replay_paints_readable_prefix s entries :
  history_pending s = true →
  let s' := step s (HistoryResponse (Normal (VArray entries))) in
  renderer_calls (log s')
  = renderer_calls (log s) ++ flat_map replay_ops (readable_prefix entries)
  ∧ console_errors (log s')
    = console_errors (log s)
      ++ (if forallb readable entries then []
          else [("History load failed", TypeError)])
  ∧ uncaught (log s') = uncaught (log s)
  ∧ publishes (log s') = publishes (log s).
Proof.
  intros Hp s'. unfold s'. rewrite step_log_eq. cbn [step_log].
  rewrite Hp. unfold history_effects. rewrite replay_effects_prefix.
  rewrite !renderer_calls_app, !console_errors_app, !uncaught_app.
  rewrite !publishes_app, renderer_calls_Ctx, console_errors_Ctx.
  rewrite uncaught_Ctx, publishes_Ctx.
  destruct (forallb readable entries); by rewrite ?app_nil_r.
Qed.

(** X8.  When the history request fails, or resolves with anything but
    an array, all that happens is one [console.error]: nothing is
    painted, nothing is published, no exception leaves the handler, and
    the rest of the state is as it was. *)
Theorem history_failure_contained s res err :
  history_pending s = true →
  res = Throw err
  ∨ (∃ data, res = Normal data ∧ (∀ items, data ≠ VArray items)
             ∧ err = TypeError) →
  step s (HistoryResponse res)
  = append [ConsoleError "History load failed" err]
           (set_history_pending false s).
Proof.
  intros Hp Hres. rewrite step_split. cbn [step_log step_state].
  rewrite Hp. f_equal.
  destruct Hres as [->|(data & -> & Hna & ->)]; [done|].
  destruct data; try done. by destruct (Hna items).
Qed.

(** *** The toolbar *)

Lemma renderer_calls_segment_effects s a b :
  renderer_calls (segment_effects s a b)
  = drawLine_ops (VNum (x a)) (VNum (y a)) (VNum (x b)) (VNum (y b))
                 (VString (color s)) (VNum (lineWidth s)) (VString (tool s)).
Proof.
  unfold segment_effects. rewrite renderer_calls_app, renderer_calls_Ctx.
  destruct (is_connected s); by rewrite app_nil_r.
Qed.

(** X9.  Picking a colour also selects the draw tool: whatever tool was
    active, the eraser included, the next stroke is painted source-over
    in the colour picked. *)
Theorem color_pick_selects_draw s c q :
  isDrawing s = true →
  tool (step s (ChangeColor c)) = "draw"
  ∧ renderer_calls (log (run s [ChangeColor c; mouse_move q]))
    = renderer_calls (log s)
      ++ draw_mode_ops (VNum (x (lastPos s))) (VNum (y (lastPos s)))
                       (VNum (x (pointer_pos q))) (VNum (y (pointer_pos q)))
                       (VString c) (VNum (lineWidth s)).
Proof.
  intros Hd. split; [done|].
  rewrite !run_cons. change (run ?t []) with t.
  rewrite step_move.
  change (isDrawing (step s (ChangeColor c))) with (isDrawing s). rewrite Hd.
  change (log (set_lastPos ?a ?t)) with (log t).
  rewrite log_append, renderer_calls_app, renderer_calls_segment_effects.
  reflexivity.
Qed.

(** *** What a whole run leaves in the log *)

Lemma step_client_stays s ev :
  is_Some (stompClientRef s) → is_Some (stompClientRef (step s ev)).
Proof.
  intros Hs. rewrite step_split.
  change (stompClientRef (append ?l ?t)) with (stompClientRef t).
  destruct ev; cbn [step_state]; try done;
    repeat match goal with |- context [match ?c with _ => _ end] =>
      destruct c end; done.
Qed.

Lemma step_userId s ev : userId (step s ev) = userId s.
Proof.
  rewrite step_split. change (userId (append ?l ?t)) with (userId t).
  destruct ev; cbn [step_state]; try done;
    repeat match goal with |- context [match ?c with _ => _ end] =>
      destruct c end; done.
Qed.

Lemma run_userId evs s : userId (run s evs) = userId s.
Proof.
  revert s. induction evs as [|ev evs IH]; intros s; [done|].
  by rewrite run_cons, IH, step_userId.
Qed.

Lemma count_cons f ev evs :
  count f (ev :: evs) = ((if f ev then 1 else 0) + count f evs)%nat.
Proof. unfold count. cbn. by destruct (f ev). Qed.

Lemma subscriptions_history_effects res : subscriptions (history_effects res) = [].
Proof.
  destruct res as [data|err]; [|done]. destruct data; try done.
  unfold history_effects. rewrite replay_effects_prefix.
  rewrite subscriptions_app, subscriptions_Ctx.
  by destruct (forallb readable items).
Qed.

Lemma requests_history_effects res : requests (history_effects res) = [].
Proof.
  destruct res as [data|err]; [|done]. destruct data; try done.
  unfold history_effects. rewrite replay_effects_prefix.
  rewrite requests_app, requests_Ctx.
  by destruct (forallb readable items).
Qed.

Lemma subscriptions_step_log s ev :
  is_Some (stompClientRef s) →
  subscriptions (step_log s ev)
  = if is_StompConnected ev then ["/topic/whiteboard"] else [].
Proof.
  intros [c Hc]. destruct ev; cbn [step_log is_StompConnected]; try done.
  - destruct (history_pending s); [|done]. apply subscriptions_history_effects.
  - by rewrite Hc.
  - destruct (is_connected s); [|done].
    rewrite message_paints_Ctx, subscriptions_app, subscriptions_Ctx.
    by destruct (message_completion parsed).
  - destruct (isDrawing s); [|done]. unfold segment_effects.
    rewrite subscriptions_app, subscriptions_Ctx.
    by destruct (is_connected s).
  - unfold clear_effects. by destruct (is_connected s).
  - by destruct (deletes_pending s), ok.
Qed.

Lemma requests_step_log s ev :
  requests (step_log s ev)
  = if is_ClickClear ev
    then [("DELETE", API_URL +:+ "/api/whiteboard/clear/" +:+ SESSION_ID)]
    else [].
Proof.
  destruct ev; cbn [step_log is_ClickClear]; try done.
  - destruct (history_pending s); [|done]. apply requests_history_effects.
  - by destruct (stompClientRef s).
  - destruct (is_connected s); [|done].
    rewrite message_paints_Ctx, requests_app, requests_Ctx.
    by destruct (message_completion parsed).
  - destruct (isDrawing s); [|done]. unfold segment_effects.
    rewrite requests_app, requests_Ctx.
    by destruct (is_connected s).
  - unfold clear_effects. by destruct (is_connected s).
  - by destruct (deletes_pending s), ok.
Qed.

Lemma connectedUsers_step s ev :
  is_Some (stompClientRef s) →
  connectedUsers (step s ev)
  = connectedUsers s + (if is_StompConnected ev then 1 else 0).
Proof.
  intros [c Hc]. rewrite step_split.
  change (connectedUsers (append ?l ?t)) with (connectedUsers t).
  destruct ev; cbn [step_state is_StompConnected]; rewrite ?Hc;
    try (cbn; lia);
    repeat match goal with |- context [match ?c with _ => _ end] =>
      destruct c end; cbn; lia.
Qed.

Lemma run_connections evs s :
  is_Some (stompClientRef s) →
  connectedUsers (run s evs)
  = connectedUsers s + Z.of_nat (count is_StompConnected evs)
  ∧ subscriptions (log (run s evs))
    = subscriptions (log s)
      ++ replicate (count is_StompConnected evs) "/topic/whiteboard".
Proof.
  revert s. induction evs as [|ev evs IH]; intros s Hs.
  { cbn. split; [lia|by rewrite app_nil_r]. }
  rewrite run_cons, count_cons.
  destruct (IH (step s ev) (step_client_stays _ ev Hs)) as [-> ->].
  rewrite (connectedUsers_step _ _ Hs), step_log_eq, subscriptions_app.
  rewrite (subscriptions_step_log _ _ Hs).
  destruct (is_StompConnected ev); cbn [Nat.add replicate].
  - split; [lia|by rewrite <- app_assoc].
  - split; [lia|by rewrite app_nil_r].
Qed.

(** X10.  The counter shown as "active" starts at 1 and goes up by one
    each time the broker connection is established, reconnections
    included; nothing else changes it, a lost connection does not bring
    it down, and every connection subscribes to the topic once. *)
Theorem connected_users_counts_connections uid r evs :
  let s := run (mounted uid r) evs in
  connectedUsers s = 1 + Z.of_nat (count is_StompConnected evs)
  ∧ subscriptions (log s)
    = replicate (count is_StompConnected evs) "/topic/whiteboard".
Proof.
  intros s. unfold s.
  by destruct (run_connections evs (mounted uid r)) as [-> ->].
Qed.

Lemma run_requests evs s :
  requests (log (run s evs))
  = requests (log s)
    ++ replicate (count is_ClickClear evs)
         ("DELETE", API_URL +:+ "/api/whiteboard/clear/" +:+ SESSION_ID).
Proof.
  revert s. induction evs as [|ev evs IH]; intros s.
  { cbn. by rewrite app_nil_r. }
  rewrite run_cons, count_cons, IH, step_log_eq, requests_app.
  rewrite requests_step_log.
  destruct (is_ClickClear ev); cbn [Nat.add replicate].
  - by rewrite <- app_assoc.
  - by rewrite app_nil_r.
Qed.

(** X11.  Over the whole life of the mounted component the only HTTP
    requests are the one history GET issued at mount and one DELETE per
    click on Clear: the history is not fetched again after a
    reconnection, and a clear received from a peer deletes nothing. *)
Theorem http_requests_of_a_run uid r evs :
  requests (log (run (mounted uid r) evs))
  = ("GET", API_URL +:+ "/api/whiteboard/history/" +:+ SESSION_ID)
    :: replicate (count is_ClickClear evs)
         ("DELETE", API_URL +:+ "/api/whiteboard/clear/" +:+ SESSION_ID).
Proof. by rewrite run_requests. Qed.

Lemma publishes_step_log_tagged s ev :
  Forall (tagged (userId s)) (publishes (step_log s ev)).
Proof.
  destruct ev; cbn [step_log]; try by constructor.
  - destruct (history_pending s); [|by constructor].
    rewrite publishes_history_effects. constructor.
  - destruct (stompClientRef s); by constructor.
  - destruct (is_connected s); [|by constructor].
    rewrite message_paints_Ctx, publishes_app, publishes_Ctx.
    destruct (message_completion parsed); by constructor.
  - destruct (isDrawing s); [|by constructor]. unfold segment_effects.
    rewrite publishes_app, publishes_Ctx.
    destruct (is_connected s); [|by constructor].
    constructor; [apply draw_envelope_tagged|constructor].
  - unfold clear_effects. destruct (is_connected s); [|by constructor].
    constructor; [apply clear_envelope_tagged|constructor].
  - destruct (deletes_pending s), ok; by constructor.
Qed.

Lemma run_publications_tagged evs s :
  Forall (tagged (userId s)) (publishes (log s)) →
  Forall (tagged (userId s)) (publishes (log (run s evs))).
Proof.
  revert s. induction evs as [|ev evs IH]; intros s Hs; [done|].
  rewrite run_cons, <- (step_userId s ev). apply IH.
  rewrite step_userId, step_log_eq, publishes_app.
  apply Forall_app. split; [done|apply publishes_step_log_tagged].
Qed.

(** X12.  The participant's id never changes, and everything the
    component ever publishes goes to the destination /app/draw and
    carries that id, the session id, and the discriminator ["draw"] or
    ["clear"]. *)
Theorem publications_tagged uid r evs :
  userId (run (mounted uid r) evs) = uid
  ∧ Forall (tagged uid) (publishes (log (run (mounted uid r) evs))).
Proof.
  split; [by rewrite run_userId|].
  apply (run_publications_tagged evs (mounted uid r)). constructor.
Qed.

(** *** Canvas size *)




(** *** A gesture, seen by the renderer and by the broker *)

Lemma renderer_calls_flat_map {A} (f : A → list effect) l :
  renderer_calls (flat_map f l) = flat_map (λ a, renderer_calls (f a)) l.
Proof.
  induction l as [|a l IH]; [done|]. cbn [flat_map].
  by rewrite renderer_calls_app, IH.
Qed.

Lemma publishes_flat_map {A} (f : A → list effect) l :
  publishes (flat_map f l) = flat_map (λ a, publishes (f a)) l.
Proof.
  induction l as [|a l IH]; [done|]. cbn [flat_map].
  by rewrite publishes_app, IH.
Qed.

Lemma publishes_segment_effects_connected s a b :
  publishes (segment_effects s a b)
  = if is_connected s
    then [("/app/draw",
           draw_envelope (userId s) a b (color s) (lineWidth s) (tool s))]
    else [].
Proof.
  unfold segment_effects. rewrite publishes_app, publishes_Ctx.
  by destruct (is_connected s).
Qed.

Lemma flat_map_guarded {A B} (c : bool) (g : A → B) l :
  flat_map (λ a, if c then [g a] else []) l = if c then g <$> l else [].
Proof.
  induction l as [|a l IH]; [by destruct c|]. cbn [flat_map].
  rewrite IH. by destruct c.
Qed.

(** X14.  Of one gesture the renderer gets one stroke per move sample, in
    order, with the colour, width and tool current at the time, whether
    or not the broker is connected; the broker gets, when connected, one
    envelope per sample, in the same order and with the same end points,
    and nothing otherwise. *)
Theorem gesture_paints_and_publications s down moves :
  let segs := gesture_segments (pointer_pos down) (pointer_pos <$> moves) in
  let s' := run s (mouse_down down :: (mouse_move <$> moves)) in
  renderer_calls (log s')
  = renderer_calls (log s)
    ++ flat_map
         (λ seg, drawLine_ops (VNum (x seg.1)) (VNum (y seg.1))
                              (VNum (x seg.2)) (VNum (y seg.2))
                              (VString (color s)) (VNum (lineWidth s))
                              (VString (tool s)))
         segs
  ∧ publishes (log s')
    = publishes (log s)
      ++ (if is_connected s
          then (λ seg, ("/app/draw",
                        draw_envelope (userId s) seg.1 seg.2
                                      (color s) (lineWidth s) (tool s)))
               <$> segs
          else []).
Proof.
  intros segs s'.
  assert (Hlog : log s'
    = log s ++ flat_map (λ seg, segment_effects s seg.1 seg.2) segs).
  { unfold s'. rewrite run_cons. unfold mouse_down at 1. cbn [step].
    unfold run_handler. rewrite startDrawing_run, run_moves by done.
    reflexivity. }
  rewrite Hlog, renderer_calls_app, publishes_app.
  rewrite renderer_calls_flat_map, publishes_flat_map. split.
  - f_equal. apply flat_map_ext. intros seg.
    apply renderer_calls_segment_effects.
  - f_equal. rewrite <- flat_map_guarded. apply flat_map_ext. intros seg.
    apply publishes_segment_effects_connected.
Qed.

(** *** Exceptions and lost connections *)

Lemma uncaught_step_log s ev :
  may_throw ev = false → uncaught (step_log s ev) = [].
Proof.
  destruct ev; cbn [step_log may_throw]; try done.
  - intros _. destruct (history_pending s); [|done].
    destruct res as [data|err]; [|done]. destruct data; try done.
    unfold history_effects. rewrite replay_effects_prefix.
    rewrite uncaught_app, uncaught_Ctx.
    by destruct (forallb readable items).
  - by destruct (stompClientRef s).
  - intros _. destruct (isDrawing s); [|done]. unfold segment_effects.
    rewrite uncaught_app, uncaught_Ctx. by destruct (is_connected s).
  - intros _. unfold clear_effects. by destruct (is_connected s).
  - destruct ok; [|done]. by destruct (deletes_pending s).
Qed.

(** X15.  Nothing the user does, and no answer of the history store other
    than a failed DELETE, makes a handler throw: over any events that
    contain no broker frame and no failed DELETE, no uncaught exception is
    added to the log. *)
Theorem user_actions_never_throw s evs :
  Forall (λ ev, may_throw ev = false) evs →
  uncaught (log (run s evs)) = uncaught (log s).
Proof.
  intros Hevs. revert s.
  induction Hevs as [|ev evs Hev _ IH]; intros s; [done|].
  rewrite run_cons, IH, step_log_eq, uncaught_app.
  by rewrite (uncaught_step_log _ _ Hev), app_nil_r.
Qed.

Lemma step_stays_offline s ev :
  is_connected s = false →
  is_StompConnected ev = false →
  is_connected (step s ev) = false ∧ publishes (step_log s ev) = [].
Proof.
  intros Hc Hev. split.
  - rewrite step_split. unfold is_connected in *.
    change (stompClientRef (append ?l ?t)) with (stompClientRef t).
    destruct ev; try done; cbn [step_state].
    all: try (destruct (history_pending s)).
    all: try (destruct (isDrawing s)).
    all: try (destruct (deletes_pending s)).
    all: try exact Hc.
    all: destruct (stompClientRef s) eqn:Hclient; [done|by rewrite Hclient].
  - destruct (step_effects s ev) as (d & Hd & Hp).
    rewrite step_log_eq in Hd. apply app_inv_head in Hd as ->.
    apply Hp. by left.
Qed.

Lemma run_stays_offline evs s :
  is_connected s = false →
  Forall (λ ev, is_StompConnected ev = false) evs →
  is_connected (run s evs) = false
  ∧ publishes (log (run s evs)) = publishes (log s).
Proof.
  intros Hc Hevs. revert s Hc.
  induction Hevs as [|ev evs Hev _ IH]; intros s Hc; [done|].
  destruct (step_stays_offline s ev Hc Hev) as [Hc' Hp].
  rewrite run_cons. destruct (IH _ Hc') as [-> ->].
  by rewrite step_log_eq, publishes_app, Hp, app_nil_r.
Qed.

(** X16.  What is drawn or cleared while the connection is down is never
    sent: from the loss of the connection to the next connection, and
    through that reconnection, nothing is published, although every
    stroke is still painted locally (X14). *)
Theorem offline_actions_never_published s evs :
  Forall (λ ev, is_StompConnected ev = false) evs →
  is_connected (run (step s StompDisconnected) evs) = false
  ∧ publishes (log (run (step s StompDisconnected) (evs ++ [StompConnected])))
    = publishes (log s).
Proof.
  intros Hevs.
  assert (Hoff : is_connected (step s StompDisconnected) = false).
  { unfold is_connected. cbn [step].
    destruct (stompClientRef s) eqn:Hclient; [done|by rewrite Hclient]. }
  destruct (run_stays_offline evs _ Hoff Hevs) as [Hc Hp].
  split; [done|]. rewrite run_app. change (run ?t [?e]) with (step t e).
  rewrite step_log_eq, publishes_app, Hp. cbn [step_log].
  rewrite step_log_eq. cbn [step_log]. rewrite app_nil_r.
  destruct (stompClientRef _); cbn; by rewrite app_nil_r.
Qed.

End Further.

(** ** The further properties at the sample data *)


Lemma drawLine_mode_witness :
  renderer_calls
    (log (drawLine (znum 0) (znum 0) (znum 1) (znum 1) (VString "#123456")
                   (znum 2) (VString "eraser") carol).2)
  = draw_mode_ops (znum 0) (znum 0) (znum 1) (znum 1) (VString "#123456")
                  (znum 2)
  ∧ renderer_calls
      (log (drawLine (znum 0) (znum 0) (znum 1) (znum 1) (VString "#123456")
                     (znum 2) VUndefined carol).2)
    = draw_mode_ops (znum 0) (znum 0) (znum 1) (znum 1) (VString "#123456")
                    (znum 2)
  ∧ renderer_calls
      (log (drawLine (znum 0) (znum 0) (znum 1) (znum 1) (VString "#123456")
                     (znum 2) (VString "erase") carol).2)
    = erase_mode_ops (znum 0) (znum 0) (znum 1) (znum 1) (znum 2).
Proof.
  split_and!.
  - rewrite (proj2 (drawLine_mode (znum 0) (znum 0) (znum 1) (znum 1)
                      (VString "#123456") (znum 2) (VString "eraser") carol));
      [reflexivity|discriminate].
  - rewrite (proj2 (drawLine_mode (znum 0) (znum 0) (znum 1) (znum 1)
                      (VString "#123456") (znum 2) VUndefined carol));
      [reflexivity|discriminate].
  - rewrite (proj1 (drawLine_mode (znum 0) (znum 0) (znum 1) (znum 1)
                      (VString "#123456") (znum 2) (VString "erase") carol));
      reflexivity.
Defined.

Lemma replay_paints_like_live_witness :
  readable toolless_entry = true
  ∧ replay_ops segment2 = inbound_ops segment2
  ∧ renderer_calls (log (step bob (StompMessage (Some segment2))))
    = renderer_calls (log bob) ++ inbound_ops segment2
  ∧ renderer_calls
      (log (step carol (HistoryResponse (Normal (VArray [segment2])))))
    = renderer_calls (log carol) ++ inbound_ops segment2.
Proof.
  split; [reflexivity|].
  apply (replay_paints_like_live segment2 bob carol); reflexivity.
Defined.

Lemma published_segment_repainted_by_peer_witness :
  isDrawing alice_drawing = true
  ∧ userId bob ≠ userId alice_drawing
  ∧ renderer_calls
      (log (step bob (StompMessage (Some
         (draw_envelope "user-alice001" (lastPos alice_drawing)
            (pointer_pos (sample_pointer 20 30)) "#2D3748" 4 "draw")))))
    = renderer_calls (log bob)
      ++ drawLine_ops (znum 5) (znum 5) (znum 10) (znum 10)
                      (VString "#2D3748") (znum 4) (VString "draw").
Proof.
  split; [reflexivity|]. split; [discriminate|].
  pose proof (published_segment_repainted_by_peer alice_drawing bob
                (sample_pointer 20 30) eq_refl eq_refl eq_refl)
    as Hround.
  apply Hround. discriminate.
Defined.

Lemma published_clear_wipes_peer_witness :
  is_connected alice = true
  ∧ log (step bob (StompMessage (Some (clear_envelope (userId alice)))))
    = log bob ++ [Ctx (ClearRect (znum 0) (znum 0) (znum 800) (znum 600))].
Proof.
  split; [reflexivity|].
  pose proof (published_clear_wipes_peer alice bob eq_refl eq_refl) as Hround.
  apply Hround. discriminate.
Defined.

Lemma replay_paints_readable_prefix_witness :
  history_pending carol = true
  ∧ renderer_calls
      (log (step carol
              (HistoryResponse (Normal (VArray [segment1; VNull; segment2])))))
    = renderer_calls (log carol) ++ replay_ops segment1
  ∧ console_errors
      (log (step carol
              (HistoryResponse (Normal (VArray [segment1; VNull; segment2])))))
    = [("History load failed", TypeError)].
Proof.
  split; [reflexivity|].
  pose proof (replay_paints_readable_prefix carol
                [segment1; VNull; segment2] eq_refl) as (Hr & Hc & _).
  split; [|exact Hc]. rewrite Hr. reflexivity.
Defined.

Lemma history_failure_contained_witness :
  history_pending carol = true
  ∧ step carol (HistoryResponse (Throw RequestError))
    = append [ConsoleError "History load failed" RequestError]
             (set_history_pending false carol)
  ∧ step carol (HistoryResponse (Normal (VString "Internal Server Error")))
    = append [ConsoleError "History load failed" TypeError]
             (set_history_pending false carol).
Proof.
  split; [reflexivity|]. split.
  - apply (history_failure_contained carol (Throw RequestError) RequestError);
      [reflexivity|by left].
  - apply (history_failure_contained carol
             (Normal (VString "Internal Server Error")) TypeError);
      [reflexivity|].
    right. eexists. split; [reflexivity|]. split; [discriminate|reflexivity].
Defined.

Lemma color_pick_selects_draw_witness :
  tool (step alice_drawing ClickErase) = "erase"
  ∧ renderer_calls
      (log (run (step alice_drawing ClickErase)
                [ChangeColor "#ff0000"; mouse_move (sample_pointer 20 30)]))
    = draw_mode_ops (znum 5) (znum 5) (znum 10) (znum 10)
                    (VString "#ff0000") (znum 4).
Proof.
  split; [reflexivity|].
  apply (proj2 (color_pick_selects_draw (step alice_drawing ClickErase)
                  "#ff0000" (sample_pointer 20 30) eq_refl)).
Defined.


Lemma user_actions_never_throw_witness :
  uncaught
    (log (run carol [HistoryResponse (Normal (VArray [segment1; VNull]));
                     mouse_down (sample_pointer 15 25);
                     mouse_move (sample_pointer 20 30); MouseLeave;
                     ClickClear; DeleteResponse true]))
  = [].
Proof.
  apply (user_actions_never_throw carol). repeat constructor.
Defined.

Lemma offline_actions_never_published_witness :
  publishes
    (log (run (step alice StompDisconnected)
              ([mouse_down (sample_pointer 15 25);
                mouse_move (sample_pointer 20 30); MouseUp; ClickClear]
               ++ [StompConnected])))
  = []
  ∧ length (renderer_calls
      (log (run (step alice StompDisconnected)
              ([mouse_down (sample_pointer 15 25);
                mouse_move (sample_pointer 20 30); MouseUp; ClickClear]
               ++ [StompConnected]))))
    = 12%nat.
Proof.
  split; [|reflexivity].
  assert (Hevs : Forall (λ ev : @event Z_Number, is_StompConnected ev = false)
    [mouse_down (sample_pointer 15 25);
     mouse_move (sample_pointer 20 30); MouseUp; ClickClear])
    by (repeat constructor).
  apply (proj2 (offline_actions_never_published alice _ Hevs)).
Defined.
